(** * libdevm.core: Hook, Builder and Recipe

    A shallow embedding of [src/libdevm/core.py].  Python objects that are
    mutated through several references (Hook, Builder, the [cwd] variable
    captured by a command closure) live in a heap indexed by locations; the
    collaborators the module calls (requests, xtract, shutil, subprocess,
    os) are an interface over an abstract world.  Every method is a function
    in a state-and-exception monad over heap and world. *)

From Stdlib Require Import ZArith NArith String Ascii.
From stdpp Require Import base option list gmap strings.

Local Open Scope Z_scope.

(** ** Python values *)

(** A Python [str] is a sequence of code points; [bytes] is a sequence of
    octets, for which Rocq's [string] (a list of 8-bit characters) serves. *)
Abbreviation pystr := (list N).
Abbreviation bytes := string.

(** A [str] literal of the source, all of them ASCII. *)
Definition lit (s : string) : pystr := map N_of_ascii (list_ascii_of_string s).
Arguments lit s%_string.

(** One code point of [s.encode("utf-8", errors="ignore")]: UTF-8, with the
    surrogates U+D800..U+DFFF (the only code points of a Python [str] that
    UTF-8 cannot encode) dropped. *)
Definition encode_code_point (c : N) : list ascii :=
  let cont (n : N) := ascii_of_N (128 + N.land n 63) in
  if (c <? 128)%N then [ascii_of_N c]
  else if (c <? 2048)%N then [ascii_of_N (192 + N.shiftr c 6); cont c]
  else if ((55296 <=? c) && (c <=? 57343))%N then []
  else if (c <? 65536)%N then
    [ascii_of_N (224 + N.shiftr c 12); cont (N.shiftr c 6); cont c]
  else
    [ascii_of_N (240 + N.land (N.shiftr c 18) 7); cont (N.shiftr c 12);
     cont (N.shiftr c 6); cont c].

Definition encode (s : pystr) : bytes :=
  string_of_list_ascii (flat_map encode_code_point s).

(** [bool(s)] for a [str]. *)
Definition str_truthy (s : pystr) : bool :=
  match s with [] => false | _ :: _ => true end.

(** [sep.join(parts)] on [bytes]. *)
Fixpoint bytes_join (sep : bytes) (parts : list bytes) : bytes :=
  match parts with
  | [] => ""
  | [p] => p
  | p :: ps => p +:+ sep +:+ bytes_join sep ps
  end.

(** ** Exceptions *)

(** The classes of the exceptions that occur.  [BuilderException] derives
    from [BaseException] (line 22), so its two subclasses are not instances
    of [Exception].  A collaborator raises [Foreign] exceptions, which say
    whether their class is under [Exception] ([OSError], [ValueError], ...)
    or only under [BaseException] ([KeyboardInterrupt], [SystemExit]). *)
Inductive exn_class :=
  | HooksMissing
  | CurrentHooksNotSet
  | AttributeError
  | TypeError
  | Foreign (under_Exception : bool) (class_name : string).

Record exn := Exn { exn_cls : exn_class; exn_str : pystr }.

Definition isinstance_Exception (e : exn) : bool :=
  match exn_cls e with
  | HooksMissing | CurrentHooksNotSet => false
  | AttributeError | TypeError => true
  | Foreign b _ => b
  end.

(** What a call of a collaborator does: it returns or it raises. *)
Inductive result (A : Type) :=
  | Returns (a : A)
  | Raises (e : exn).
Arguments Returns {A} a.
Arguments Raises {A} e.

(** ** The data model *)

Abbreviation loc := positive.

(** [StepExecutionResult] (line 19). *)
Record StepExecutionResult := mkStepExecutionResult {
  return_code : Z;
  stdout : bytes;
  stderr : bytes
}.

Definition EX_OK : Z := 0.
Definition EX_SOFTWARE : Z := 70.

(** The closures [step_] that the Builder creates, one constructor per
    [def step_] of the source, with the variables each captures.  [cwd] of a
    command closure is assigned by the closure ([nonlocal cwd]): it is a cell
    of the heap. *)
Inductive Step :=
  | download_step (url path : pystr)
  | extract_step (src : pystr) (dest : option pystr)
                 (overwrite all_ keep_intermediate : bool)
  | rm_step (path : pystr)
  | cmd_step (cmd : list pystr) (cwd : loc).

Module Hook.
Record t := mk {
  steps : list Step;
  description : option pystr
}.
End Hook.

Inductive hook_kind := install_kind | uninstall_kind | update_kind | is_updated_kind.

#[export] Instance hook_kind_eq_dec : EqDecision hook_kind.
Proof. solve_decision. Defined.

Module Builder.
Record t := mk {
  name : pystr;
  description : option pystr;
  _current_hook : option loc;
  install_hook : option loc;
  uninstall_hook : option loc;
  update_hook : option loc;
  is_updated_hook : option loc
}.

Definition slot (k : hook_kind) (b : t) : option loc :=
  match k with
  | install_kind => install_hook b
  | uninstall_kind => uninstall_hook b
  | update_kind => update_hook b
  | is_updated_kind => is_updated_hook b
  end.

Definition set_slot (k : hook_kind) (h : option loc) (b : t) : t :=
  match k with
  | install_kind =>
      mk (name b) (description b) (_current_hook b)
         h (uninstall_hook b) (update_hook b) (is_updated_hook b)
  | uninstall_kind =>
      mk (name b) (description b) (_current_hook b)
         (install_hook b) h (update_hook b) (is_updated_hook b)
  | update_kind =>
      mk (name b) (description b) (_current_hook b)
         (install_hook b) (uninstall_hook b) h (is_updated_hook b)
  | is_updated_kind =>
      mk (name b) (description b) (_current_hook b)
         (install_hook b) (uninstall_hook b) (update_hook b) h
  end.

Definition set_current_hook (h : option loc) (b : t) : t :=
  mk (name b) (description b) h
     (install_hook b) (uninstall_hook b) (update_hook b) (is_updated_hook b).
End Builder.

Module Recipe.
Record t := mk {
  name : pystr;
  description : option pystr;
  install_hook : option loc;
  uninstall_hook : option loc;
  update_hook : option loc;
  is_updated_hook : option loc
}.
End Recipe.

(** The objects that are reached through references. *)
Record Heap := mkHeap {
  hooks : gmap loc Hook.t;
  cells : gmap loc pystr;
  builders : gmap loc Builder.t
}.

Definition set_hooks (f : gmap loc Hook.t → gmap loc Hook.t) (h : Heap) : Heap :=
  mkHeap (f (hooks h)) (cells h) (builders h).
Definition set_cells (f : gmap loc pystr → gmap loc pystr) (h : Heap) : Heap :=
  mkHeap (hooks h) (f (cells h)) (builders h).
Definition set_builders (f : gmap loc Builder.t → gmap loc Builder.t) (h : Heap) : Heap :=
  mkHeap (hooks h) (cells h) (f (builders h)).

(** [subprocess.CompletedProcess], the three attributes read at line 134. *)
Record CompletedProcess := mkCompletedProcess {
  returncode : Z;
  p_stdout : bytes;
  p_stderr : bytes
}.

(** ** The collaborators *)

Class Collaborators (World : Type) := {
  (** lines 72-75: [requests.get(url, stream=True)], [open(path, 'wb')],
      [shutil.copyfileobj] and the close of the file *)
  http_get_to_file : pystr → pystr → World → result () * World;
  (** line 99 *)
  xtract : pystr → option pystr → bool → bool → bool → World → result () * World;
  (** line 118 *)
  shutil_rmtree : pystr → World → result () * World;
  (** line 132 *)
  os_getcwd : World → result pystr;
  (** line 133, with [stdout] and [stderr] piped *)
  subprocess_run : list pystr → pystr → World → result CompletedProcess * World;
  (** line 164 *)
  os_environ_get : pystr → World → option pystr;
  (** lines 189, 193, 197 *)
  print : pystr → World → result () * World;
  (** the [repr] that [dataclass] generates for a Hook, which shows the
      closures by their addresses (lines 167-168) *)
  repr_Hook : Hook.t → pystr
}.

(** ** The monad of Python code: state and exceptions *)

Record State (World : Type) := mkState {
  heap : Heap;
  world : World
}.
Arguments mkState {World} heap world.
Arguments heap {World} s.
Arguments world {World} s.

(** The end of a computation.  [Dangling] marks the use of a location that
    names no object of the heap; Python, which has no dangling reference,
    never gets there. *)
Inductive outcome (A : Type) :=
  | Ok (a : A)
  | Raise (e : exn)
  | Dangling.
Arguments Ok {A} a.
Arguments Raise {A} e.
Arguments Dangling {A}.

Definition M (World : Type) (A : Type) : Type :=
  State World → outcome A * State World.

#[export] Instance M_ret {World} : MRet (M World) := λ A (a : A) st, (Ok a, st).

#[export] Instance M_bind {World} : MBind (M World) :=
  λ A B (f : A → M World B) (m : M World A) st,
    match m st with
    | (Ok a, st') => f a st'
    | (Raise e, st') => (Raise e, st')
    | (Dangling, st') => (Dangling, st')
    end.

Section Semantics.
Context {World : Type} `{!Collaborators World}.

#[local] Abbreviation M := (M World).

(** [raise e] *)
Definition raise {A} (e : exn) : M A := λ st, (Raise e, st).

(** [try: body  except Exception as err: handler(err)] *)
Definition try_except_Exception {A} (body : M A) (handler : exn → M A) : M A :=
  λ st,
    match body st with
    | (Raise err, st') =>
        if isinstance_Exception err then handler err st' else (Raise err, st')
    | r => r
    end.

(** A call of a collaborator that acts on the world. *)
Definition call {A} (f : World → result A * World) : M A := λ st,
  match f (world st) with
  | (Returns a, w) => (Ok a, mkState (heap st) w)
  | (Raises e, w) => (Raise e, mkState (heap st) w)
  end.

(** A call of a collaborator that only reads the world. *)
Definition ask {A} (f : World → A) : M A := λ st, (Ok (f (world st)), st).

Definition of_result {A} (r : result A) : M A := λ st,
  match r with
  | Returns a => (Ok a, st)
  | Raises e => (Raise e, st)
  end.

(** *** References *)

Definition deref {A} (sel : Heap → gmap loc A) (l : loc) : M A := λ st,
  match sel (heap st) !! l with
  | Some a => (Ok a, st)
  | None => (Dangling, st)
  end.

Definition modify_heap (f : Heap → Heap) : M () := λ st,
  (Ok (), mkState (f (heap st)) (world st)).

Definition get_hook : loc → M Hook.t := deref hooks.
Definition get_cell : loc → M pystr := deref cells.
Definition get_builder : loc → M Builder.t := deref builders.

Definition set_hook (l : loc) (h : Hook.t) : M () :=
  modify_heap (set_hooks <[l := h]>).
Definition set_cell (l : loc) (s : pystr) : M () :=
  modify_heap (set_cells <[l := s]>).
Definition set_builder (l : loc) (b : Builder.t) : M () :=
  modify_heap (set_builders <[l := b]>).

(** A new object gets a location no object of its kind has. *)
Definition new_hook (h : Hook.t) : M loc := λ st,
  let l := fresh (dom (hooks (heap st))) in
  (Ok l, mkState (set_hooks <[l := h]> (heap st)) (world st)).
Definition new_cell (s : pystr) : M loc := λ st,
  let l := fresh (dom (cells (heap st))) in
  (Ok l, mkState (set_cells <[l := s]> (heap st)) (world st)).
Definition new_builder (b : Builder.t) : M loc := λ st,
  let l := fresh (dom (builders (heap st))) in
  (Ok l, mkState (set_builders <[l := b]> (heap st)) (world st)).

(** *** The steps (lines 70-79, 97-108, 116-121, 129-134) *)

(** The [except Exception as err] clause shared by the download, extract
    and rm closures. *)
Definition step_failed (err : exn) : M StepExecutionResult :=
  mret (mkStepExecutionResult EX_SOFTWARE "" (encode (exn_str err))).

(** [dest.encode(...)] at line 104, where [dest] defaults to [None]. *)
Definition encode_dest (dest : option pystr) : M bytes :=
  match dest with
  | Some d => mret (encode d)
  | None =>
      raise (Exn AttributeError (lit "'NoneType' object has no attribute 'encode'"))
  end.

(** Lines 133-134: the process runs to its end in directory [d], and its
    exit code and output make the result. *)
Definition run_process (cmd : list pystr) (d : pystr) : M StepExecutionResult :=
  p ← call (subprocess_run cmd d);
  mret (mkStepExecutionResult (returncode p) (p_stdout p) (p_stderr p)).

(** The call [step()] of a closure. *)
Definition call_step (s : Step) : M StepExecutionResult :=
  match s with
  | download_step url path =>
      try_except_Exception
        (call (http_get_to_file url path);;
         mret (mkStepExecutionResult EX_OK ("downloaded to " +:+ encode path) ""))
        step_failed
  | extract_step src dest overwrite all_ keep_intermediate =>
      try_except_Exception
        (call (xtract src dest overwrite all_ keep_intermediate);;
         d ← encode_dest dest;
         mret (mkStepExecutionResult EX_OK
                 (bytes_join " " ["extracted"; encode src; "to"; d]) ""))
        step_failed
  | rm_step path =>
      try_except_Exception
        (call (shutil_rmtree path);;
         mret (mkStepExecutionResult EX_OK ("removed " +:+ encode path) ""))
        step_failed
  | cmd_step cmd cwd =>
      c ← get_cell cwd;
      d ← (if str_truthy c then mret c
           else d ← ask os_getcwd ≫= of_result; set_cell cwd d;; mret d);
      run_process cmd d
  end.

(** *** Hook.__call__ (lines 43-48), called without arguments as the
    Recipe calls it.  The loop appends each result to [r]; no closure of
    this module touches a Hook, so the list it iterates over is the one
    read on entry. *)
Fixpoint run_steps (ss : list Step) (r : list StepExecutionResult)
  : M (list StepExecutionResult) :=
  match ss with
  | [] => mret r
  | step :: ss' => x ← call_step step; run_steps ss' (r ++ [x])
  end.

Definition Hook_call (self : loc) : M (list StepExecutionResult) :=
  h ← get_hook self;
  run_steps (Hook.steps h) [].
End Semantics.

Section Builder_and_Recipe.
Context {World : Type} `{!Collaborators World}.

#[local] Abbreviation M := (M World).

(** ** Builder *)

(** Lines 84-86.  A Hook defines neither [__bool__] nor [__len__], so
    [not self._current_hook] holds exactly at [None]. *)
Definition Builder__check_current_hook (self : loc) : M () :=
  b ← get_builder self;
  match Builder._current_hook b with
  | None => raise (Exn CurrentHooksNotSet (lit "No hook set for " ++ Builder.name b))
  | Some _ => mret ()
  end.

(** [self._current_hook.steps.append(step_)] (lines 81, 110, 123, 136). *)
Definition append_to_current_hook (self : loc) (step_ : Step) : M () :=
  b ← get_builder self;
  match Builder._current_hook b with
  | None => raise (Exn AttributeError (lit "'NoneType' object has no attribute 'steps'"))
  | Some l =>
      h ← get_hook l;
      set_hook l (Hook.mk (Hook.steps h ++ [step_]) (Hook.description h))
  end.

(** Lines 67-82. *)
Definition Builder_download (self : loc) (url path : pystr) : M loc :=
  Builder__check_current_hook self;;
  append_to_current_hook self (download_step url path);;
  mret self.

(** Lines 88-111. *)
Definition Builder_extract (self : loc) (src : pystr) (dest : option pystr)
    (overwrite all_ keep_intermediate : bool) : M loc :=
  Builder__check_current_hook self;;
  append_to_current_hook self
    (extract_step src dest overwrite all_ keep_intermediate);;
  mret self.

(** Lines 113-124. *)
Definition Builder_rm (self : loc) (path : pystr) : M loc :=
  Builder__check_current_hook self;;
  append_to_current_hook self (rm_step path);;
  mret self.

(** Lines 126-137.  Each call makes a closure with a [cwd] variable of its
    own, which starts as the argument. *)
Definition Builder_cmd (self : loc) (cmd : list pystr) (cwd : pystr) : M loc :=
  Builder__check_current_hook self;;
  c ← new_cell cwd;
  append_to_current_hook self (cmd_step cmd c);;
  mret self.

(** Lines 139-161: the four selection methods differ in the field they use. *)
Definition Builder_select (k : hook_kind) (self : loc) (description : pystr) : M loc :=
  b ← get_builder self;
  match Builder.slot k b with
  | None =>
      h ← new_hook (Hook.mk [] (Some description));
      set_builder self (Builder.set_slot k (Some h) b)
  | Some _ => mret ()
  end;;
  b ← get_builder self;
  set_builder self (Builder.set_current_hook (Builder.slot k b) b);;
  mret self.

Definition Builder_install := Builder_select install_kind.
Definition Builder_uninstall := Builder_select uninstall_kind.
Definition Builder_update := Builder_select update_kind.
Definition Builder_is_updated := Builder_select is_updated_kind.

(** [bool(hook)] for a field that holds a Hook or [None]. *)
Definition hook_truthy (o : option loc) : bool :=
  match o with Some _ => true | None => false end.

(** [bool(os.environ.get("DEVM_DEBUG"))]: the variable is set, and not to
    the empty string. *)
Definition DEVM_DEBUG (w : World) : bool :=
  match os_environ_get (lit "DEVM_DEBUG") w with
  | Some v => str_truthy v
  | None => false
  end.

(** [f"{hook}"] for a field that holds a Hook or [None]. *)
Definition format_hook (o : option loc) : M pystr :=
  match o with
  | None => mret (lit "None")
  | Some l => h ← get_hook l; mret (repr_Hook h)
  end.

(** Lines 163-176.  The Recipe is made with [name] and the four hooks;
    [description] is not passed and takes the default of line 182. *)
Definition Builder_to_recipe (self : loc) : M Recipe.t :=
  b ← get_builder self;
  missing ←
    ((if negb (hook_truthy (Builder.install_hook b) && hook_truthy (Builder.uninstall_hook b))
      then debug ← ask DEVM_DEBUG; mret (negb debug)
      else mret false) : M bool);
  if (missing : bool)
  then
    i ← format_hook (Builder.install_hook b);
    u ← format_hook (Builder.uninstall_hook b);
    raise (Exn HooksMissing
             (lit "One of the required hooks are none:" ++ [10%N]
              ++ lit "self.install_hook: " ++ i ++ [10%N]
              ++ lit "self.uninstall_hook: " ++ u ++ [10%N]))
  else
    mret (Recipe.mk (Builder.name b) (Some (lit ""))
            (Builder.install_hook b) (Builder.uninstall_hook b)
            (Builder.update_hook b) (Builder.is_updated_hook b)).

(** Line 204. *)
Definition recipe (name description : pystr) : M loc :=
  new_builder (Builder.mk name (Some description) None None None None None).

(** ** Recipe *)

(** [hook()] for a field that holds a Hook or [None]. *)
Definition call_hook_field (o : option loc) : M (list StepExecutionResult) :=
  match o with
  | Some l => Hook_call l
  | None => raise (Exn TypeError (lit "'NoneType' object is not callable"))
  end.

(** Lines 188-190. *)
Definition Recipe_install (self : Recipe.t) : M (list StepExecutionResult) :=
  call (print (lit "[*] Installing " ++ Recipe.name self));;
  call_hook_field (Recipe.install_hook self).

(** Lines 192-194. *)
Definition Recipe_update (self : Recipe.t) : M (list StepExecutionResult) :=
  call (print (lit "[*] Updating " ++ Recipe.name self));;
  call_hook_field (Recipe.update_hook self).

(** Lines 196-198. *)
Definition Recipe_uninstall (self : Recipe.t) : M (list StepExecutionResult) :=
  call (print (lit "[*] Uninstalling " ++ Recipe.name self));;
  call_hook_field (Recipe.uninstall_hook self).

(** Lines 200-201. *)
Definition Recipe_is_updated (self : Recipe.t) : M bool :=
  rs ← call_hook_field (Recipe.is_updated_hook self);
  mret (forallb (λ r, return_code r =? 0) rs).

End Builder_and_Recipe.

(** ** Notions the properties are stated with *)

Section Notions.
Context {World : Type} `{!Collaborators World}.

#[local] Abbreviation M := (M World).

(** [steps_return ss st rs st']: called one after the other from [st], each
    step of [ss] returns; [rs] are the results, in the order of the steps,
    and [st'] is the state the last one leaves. *)
Inductive steps_return
  : list Step → State World → list StepExecutionResult → State World → Prop :=
  | steps_return_nil st : steps_return [] st [] st
  | steps_return_cons step ss st x st1 xs st2 :
      call_step step st = (Ok x, st1) →
      steps_return ss st1 xs st2 →
      steps_return (step :: ss) st (x :: xs) st2.

(** The collaborator that a download, extract or rm step delegates to. *)
Definition delegate (s : Step) : option (World → result () * World) :=
  match s with
  | download_step url path => Some (http_get_to_file url path)
  | extract_step src dest overwrite all_ keep_intermediate =>
      Some (xtract src dest overwrite all_ keep_intermediate)
  | rm_step path => Some (shutil_rmtree path)
  | cmd_step _ _ => None
  end.

(** The message on [stdout] that the specification documents for a step
    (section 4.4: "downloaded to {path}", "extracted {src} to {dest}",
    "removed {path}"), when the step has the paths it names. *)
Definition success_message (s : Step) : option bytes :=
  match s with
  | download_step _ path => Some ("downloaded to " +:+ encode path)
  | extract_step src (Some dest) _ _ _ =>
      Some ("extracted " +:+ encode src +:+ " to " +:+ encode dest)
  | rm_step path => Some ("removed " +:+ encode path)
  | extract_step _ None _ _ _ | cmd_step _ _ => None
  end.

(** A call of a fluent chain [b.install(...).rm(...).cmd(...)]. *)
Inductive method_call :=
  | call_select (k : hook_kind) (description : pystr)
  | call_download (url path : pystr)
  | call_extract (src : pystr) (dest : option pystr)
                 (overwrite all_ keep_intermediate : bool)
  | call_rm (path : pystr)
  | call_cmd (cmd : list pystr) (cwd : pystr).

Definition run_method (self : loc) (c : method_call) : M loc :=
  match c with
  | call_select k description => Builder_select k self description
  | call_download url path => Builder_download self url path
  | call_extract src dest overwrite all_ keep_intermediate =>
      Builder_extract self src dest overwrite all_ keep_intermediate
  | call_rm path => Builder_rm self path
  | call_cmd cmd cwd => Builder_cmd self cmd cwd
  end.

(** Each call is made on what the call before it returned. *)
Fixpoint chain (self : loc) (cs : list method_call) : M loc :=
  match cs with
  | [] => mret self
  | c :: cs' => b ← run_method self c; chain b cs'
  end.

Definition is_step_constructor (c : method_call) : Prop :=
  match c with call_select _ _ => False | _ => True end.

(** [made_by hp c s]: [s] is the step that the constructor call [c] appends;
    a command step still has the [cwd] it was created with. *)
Definition made_by (hp : Heap) (c : method_call) (s : Step) : Prop :=
  match c with
  | call_select _ _ => False
  | call_download url path => s = download_step url path
  | call_extract src dest overwrite all_ keep_intermediate =>
      s = extract_step src dest overwrite all_ keep_intermediate
  | call_rm path => s = rm_step path
  | call_cmd cmd cwd => ∃ c, s = cmd_step cmd c ∧ cells hp !! c = Some cwd
  end.

(** Every reference to a Hook that a Builder holds names a Hook. *)
Definition hooks_exist (hp : Heap) (b : Builder.t) : Prop :=
  (∀ l, Builder._current_hook b = Some l → is_Some (hooks hp !! l)) ∧
  (∀ k l, Builder.slot k b = Some l → is_Some (hooks hp !! l)).

(** [hooks_grow hp hp']: every Hook of [hp] is in [hp'] with the steps it
    had, in their order, and maybe more after them. *)
Definition hooks_grow (hp hp' : Heap) : Prop :=
  ∀ l h, hooks hp !! l = Some h →
    ∃ ss, hooks hp' !! l = Some (Hook.mk (Hook.steps h ++ ss) (Hook.description h)).

(** A Builder on which a selection method was called. *)
Definition selected (hp : Heap) (self : loc) : Prop :=
  ∃ b, builders hp !! self = Some b
       ∧ hooks_exist hp b
       ∧ is_Some (Builder._current_hook b).

(** [slots_kept hp hp' self]: the fields of the Builder that hold a Hook
    hold the same Hook afterwards. *)
Definition slots_kept (hp hp' : Heap) (self : loc) : Prop :=
  ∀ b, builders hp !! self = Some b →
    ∃ b', builders hp' !! self = Some b'
          ∧ ∀ k l, Builder.slot k b = Some l → Builder.slot k b' = Some l.

End Notions.

(** ** A small world to run the code in

    A file system given by the paths that exist, a current directory, an
    environment, three programs on the path, a pending Ctrl-C, and the log
    of the calls the collaborators received. *)
Module Sim.

Inductive event :=
  | ev_get (url path : pystr)
  | ev_xtract (src : pystr) (dest : option pystr)
  | ev_rmtree (path : pystr)
  | ev_run (cmd : list pystr) (cwd : pystr)
  | ev_print (s : pystr).

Record t := mk {
  cwd : pystr;
  environ : list (pystr * pystr);
  files : list pystr;
  sigint : bool;
  log : list event
}.

Definition logged (e : event) (w : t) : t :=
  mk (cwd w) (environ w) (files w) (sigint w) (log w ++ [e]).

Definition with_files (fs : list pystr) (w : t) : t :=
  mk (cwd w) (environ w) fs (sigint w) (log w).

Definition with_cwd (d : pystr) (w : t) : t :=
  mk d (environ w) (files w) (sigint w) (log w).

Definition KeyboardInterrupt : exn := Exn (Foreign false "KeyboardInterrupt") [].

Definition FileNotFoundError (path : pystr) : exn :=
  Exn (Foreign true "FileNotFoundError")
      (lit "[Errno 2] No such file or directory: " ++ path).

(** A blocking call: a pending Ctrl-C interrupts it. *)
Definition blocking {A} (e : event) (f : t → result A * t) (w : t) : result A * t :=
  if sigint w
  then (Raises KeyboardInterrupt,
        logged e (mk (cwd w) (environ w) (files w) false (log w)))
  else f (logged e w).

Definition get (url path : pystr) : t → result () * t :=
  blocking (ev_get url path) (λ w,
    if bool_decide (url = []) then
      (Raises (Exn (Foreign true "MissingSchema") (lit "Invalid URL ''")), w)
    else (Returns (), with_files (path :: files w) w)).

Definition unpack (src : pystr) (dest : option pystr) (_ _ _ : bool)
  : t → result () * t :=
  blocking (ev_xtract src dest) (λ w,
    if bool_decide (src ∈ files w) then
      (Returns (), with_files (default (src ++ lit ".d") dest :: files w) w)
    else (Raises (FileNotFoundError src), w)).

Definition rmtree (path : pystr) : t → result () * t :=
  blocking (ev_rmtree path) (λ w,
    if bool_decide (path ∈ files w) then
      (Returns (), with_files (filter (λ p, p ≠ path) (files w)) w)
    else (Raises (FileNotFoundError path), w)).

(** [pwd] prints the directory it runs in, [true] does nothing, and
    [sh -c "exit 7"] exits with 7; no other program is on the path. *)
Definition run (cmd : list pystr) (dir : pystr) : t → result CompletedProcess * t :=
  blocking (ev_run cmd dir) (λ w,
    if bool_decide (cmd = [lit "pwd"]) then
      (Returns (mkCompletedProcess 0 (encode dir) ""), w)
    else if bool_decide (cmd = [lit "true"]) then
      (Returns (mkCompletedProcess 0 "" ""), w)
    else if bool_decide (cmd = [lit "sh"; lit "-c"; lit "exit 7"]) then
      (Returns (mkCompletedProcess 7 "" ""), w)
    else (Raises (FileNotFoundError (default [] (head cmd))), w)).

Definition getenv (k : pystr) (w : t) : option pystr :=
  (λ r, snd (snd r)) <$> list_find (λ kv, fst kv = k) (environ w).

#[global] Instance collaborators : Collaborators t := {|
  http_get_to_file := get;
  xtract := unpack;
  shutil_rmtree := rmtree;
  os_getcwd := λ w, Returns (cwd w);
  subprocess_run := run;
  os_environ_get := getenv;
  print := λ s w, (Returns (), logged (ev_print s) w);
  repr_Hook := λ h, lit "Hook(...)"
|}.

(** The world at the start: in [/home], nothing set, one archive on disk. *)
Definition w0 : t := mk (lit "/home") [] [lit "a.zip"] false [].

Definition empty_heap : Heap := mkHeap ∅ ∅ ∅.

Definition st0 : State t := mkState empty_heap w0.

(** A recipe under construction: an install hook with a removal that will
    fail and a download, an is-updated hook with two commands, an uninstall
    hook with a removal. *)
Definition tool_calls : list method_call :=
  [ call_select install_kind (lit "install");
    call_rm (lit "old");
    call_download (lit "http://host/a.zip") (lit "b.zip");
    call_select is_updated_kind [];
    call_cmd [lit "true"] [];
    call_cmd [lit "sh"; lit "-c"; lit "exit 7"] (lit "/tmp");
    call_select uninstall_kind [];
    call_rm (lit "b.zip") ].

Definition tool : State t :=
  snd ((b ← recipe (lit "tool") (lit "a tool"); chain b tool_calls) st0).

(** A Builder on which nothing was called yet. *)
Definition blank : State t := snd (recipe (lit "blank") [] st0).

(** A recipe whose is-updated hook has no steps. *)
Definition idle : State t :=
  snd ((b ← recipe (lit "idle") [];
        chain b [call_select install_kind []; call_select uninstall_kind [];
                 call_select is_updated_kind []]) st0).

(** A recipe whose install hook runs a program that is not there, and one
    that prints its directory. *)
Definition broken : State t :=
  snd ((b ← recipe (lit "broken") [];
        chain b [call_select install_kind [];
                 call_cmd [lit "no-such-program"] [];
                 call_cmd [lit "pwd"] []]) st0).

(** Ctrl-C was pressed. *)
Definition interrupted : State t :=
  mkState empty_heap (mk (cwd w0) (environ w0) (files w0) true (log w0)).

(** The same Builder, with [DEVM_DEBUG=1] in the environment. *)
Definition blank_debug : State t :=
  mkState (heap blank)
    (mk (cwd w0) [(lit "DEVM_DEBUG", lit "1")] (files w0) false []).

Definition blank_builder : Builder.t :=
  Builder.mk (lit "blank") (Some []) None None None None None.

(** The Recipe that [tool] is finalized into. *)
Definition tool_recipe : Recipe.t :=
  Recipe.mk (lit "tool") (Some [])
    (Some 1%positive) (Some 3%positive) None (Some 2%positive).

Definition idle_recipe : Recipe.t :=
  Recipe.mk (lit "idle") (Some [])
    (Some 1%positive) (Some 2%positive) None (Some 3%positive).

(** The result of a step whose path is not there. *)
Definition no_such_file (path : string) : StepExecutionResult :=
  mkStepExecutionResult 70 ""
    ("[Errno 2] No such file or directory: " +:+ path).

End Sim.

(** [built_apart hp0 self hp]: the Builder [self] of [hp] was made after
    [hp0] and so were the Hooks it holds, which exist; the objects of [hp0]
    are in [hp] as they were. *)
Definition built_apart (hp0 : Heap) (self : loc) (hp : Heap) : Prop :=
  ∃ b, builders hp !! self = Some b
       ∧ builders hp0 !! self = None
       ∧ (∀ l, Builder._current_hook b = Some l →
            hooks hp0 !! l = None ∧ is_Some (hooks hp !! l))
       ∧ (∀ k l, Builder.slot k b = Some l →
            hooks hp0 !! l = None ∧ is_Some (hooks hp !! l))
       ∧ hooks hp0 ⊆ hooks hp
       ∧ cells hp0 ⊆ cells hp
       ∧ builders hp0 ⊆ builders hp.

(** ** More runs in the small world *)
Module Runs.

(** A Builder with both required hooks, on which install is selected. *)
Definition ready : State Sim.t :=
  snd ((b ← recipe (lit "ready") [];
        chain b [call_select uninstall_kind []; call_rm (lit "b.zip");
                 call_select install_kind [];
                 call_download (lit "http://host/a.zip") (lit "b.zip")]) Sim.st0).

Definition ready_builder : Builder.t :=
  Builder.mk (lit "ready") (Some []) (Some 2%positive)
    (Some 2%positive) (Some 1%positive) None None.

Definition ready_recipe : Recipe.t :=
  Recipe.mk (lit "ready") (Some [])
    (Some 2%positive) (Some 1%positive) None None.

(** Three Hooks: the update hook has the steps of the install hook followed
    by those of the uninstall hook. *)
Definition split : State Sim.t :=
  snd ((b ← recipe (lit "split") [];
        chain b [call_select install_kind []; call_rm (lit "old");
                 call_select uninstall_kind []; call_rm (lit "a.zip");
                 call_select update_kind [];
                 call_rm (lit "old"); call_rm (lit "a.zip")]) Sim.st0).

(** [Sim.blank] with [DEVM_DEBUG] set to the empty string. *)
Definition blank_empty_debug : State Sim.t :=
  mkState (heap Sim.blank)
    (Sim.mk (Sim.cwd Sim.w0) [(lit "DEVM_DEBUG", [])] (Sim.files Sim.w0) false []).

(** The Recipe made from [Sim.blank] under the override: no hook at all. *)
Definition blank_recipe : Recipe.t :=
  Recipe.mk (lit "blank") (Some []) None None None None.

End Runs.

(** ** A world whose current directory was removed

    As [Sim], but [os.getcwd()] raises [FileNotFoundError]. *)
Module Unlinked.

Record t := mk { base : Sim.t }.

Definition lift {A} (f : Sim.t → result A * Sim.t) (w : t) : result A * t :=
  let (r, w') := f (base w) in (r, mk w').

#[global] Instance collaborators : Collaborators t := {|
  http_get_to_file := λ url path, lift (Sim.get url path);
  xtract := λ src dest o a k, lift (Sim.unpack src dest o a k);
  shutil_rmtree := λ path, lift (Sim.rmtree path);
  os_getcwd := λ w, Raises (Sim.FileNotFoundError []);
  subprocess_run := λ cmd d, lift (Sim.run cmd d);
  os_environ_get := λ k w, Sim.getenv k (base w);
  print := λ s w, (Returns (), mk (Sim.logged (Sim.ev_print s) (base w)));
  repr_Hook := λ h, lit "Hook(...)"
|}.

(** A Hook with one command created with an empty [cwd]. *)
Definition st : State t :=
  snd ((b ← recipe (lit "lost") [];
        chain b [call_select install_kind []; call_cmd [lit "pwd"] []])
         (mkState Sim.empty_heap (mk Sim.w0))).

End Unlinked.

(** * Properties *)

Ltac unfold_M :=
  unfold mbind, M_bind, mret, M_ret, raise, call, ask, of_result,
    get_hook, get_cell, get_builder, set_hook, set_cell, set_builder,
    deref, modify_heap in *.

Section Hook_properties.
Context {World : Type} `{!Collaborators World}.

Implicit Types (st : State World) (rs xs : list StepExecutionResult).

(** The loop of [Hook.__call__] with [r] collected so far. *)
Lemma run_steps_Ok ss : ∀ r st rs st',
  run_steps ss r st = (Ok rs, st') ↔
  ∃ xs, rs = r ++ xs ∧ steps_return ss st xs st'.
Proof.
  induction ss as [|s ss IH]; intros r st rs st'; simpl.
  - unfold_M. split.
    + intros [= <- <-]. exists []. rewrite app_nil_r. split; [done | constructor].
    + intros (xs & -> & Hrun). inversion Hrun; subst. by rewrite app_nil_r.
  - unfold mbind, M_bind. split.
    + destruct (call_step s st) as [[x | e |] st1] eqn:Hs; try done.
      intros (xs & -> & Hrun)%IH.
      exists (x :: xs). rewrite <- app_assoc. split; [done |].
      by econstructor.
    + intros (xs & -> & Hrun). inversion Hrun as [| ? ? ? x st1 xs' ? Hs Hrest]; subst.
      rewrite Hs. apply IH. exists xs'. by rewrite <- app_assoc.
Qed.

Lemma steps_return_length ss : ∀ st rs st',
  steps_return ss st rs st' → length rs = length ss.
Proof.
  induction ss as [|s ss IH]; intros st rs st' Hrun; inversion Hrun; subst; simpl.
  - done.
  - f_equal. eauto.
Qed.

(** A step that raises ends the loop: the exception leaves the call of the
    Hook, with the state as the step left it. *)
Lemma run_steps_Raise pre s post : ∀ r st rs st1 e st2,
  steps_return pre st rs st1 →
  call_step s st1 = (Raise e, st2) →
  run_steps (pre ++ s :: post) r st = (Raise e, st2).
Proof.
  induction pre as [|p pre IH]; intros r st rs st1 e st2 Hpre Hs;
    inversion Hpre; subst; simpl; unfold mbind, M_bind.
  - by rewrite Hs.
  - match goal with H : call_step p st = _ |- _ => rewrite H end. eauto.
Qed.

Lemma Hook_call_unfold st self h :
  hooks (heap st) !! self = Some h →
  Hook_call self st = run_steps (Hook.steps h) [] st.
Proof. intros Hh. unfold Hook_call. unfold_M. by rewrite Hh. Qed.

(** C1, as the code has it.  A Hook calls its steps in the order in which
    they were appended, each in the state its predecessor left, and no
    status that comes back ends the loop.  The call returns a list exactly
    when every step returns, and the list then has one result per step, in
    the order of the steps.  A step that raises ends the call: its exception
    is the outcome, and the steps after it are not run. *)
Theorem Hook_call_runs_every_step st self h rs st' :
  hooks (heap st) !! self = Some h →
  (Hook_call self st = (Ok rs, st') ↔ steps_return (Hook.steps h) st rs st')
  ∧ (Hook_call self st = (Ok rs, st') → length rs = length (Hook.steps h))
  ∧ (∀ before step after xs st1 e st2,
       Hook.steps h = before ++ step :: after →
       steps_return before st xs st1 →
       call_step step st1 = (Raise e, st2) →
       Hook_call self st = (Raise e, st2)).
Proof.
  intros Hh. rewrite (Hook_call_unfold _ _ _ Hh).
  assert (run_steps (Hook.steps h) [] st = (Ok rs, st')
          ↔ steps_return (Hook.steps h) st rs st') as Hiff.
  { rewrite run_steps_Ok. split.
    - by intros (xs & -> & Hrun).
    - intros Hrun. by exists rs. }
  split; [done |]. split.
  - intros Hrun%Hiff. by eapply steps_return_length.
  - intros before step after xs st1 e st2 -> Hbefore Hstep.
    by eapply run_steps_Raise.
Qed.

End Hook_properties.

Section Step_properties.
Context {World : Type} `{!Collaborators World}.

Implicit Types (st : State World) (s : Step).

(** C2, as the code has it.  A download, extract or rm step hands the work
    to its collaborator.  If that raises an exception under [Exception], the
    step returns status [EX_SOFTWARE], empty stdout, and the text of the
    exception, encoded, as stderr; an exception that is only under
    [BaseException] is not caught and leaves the step.  If the collaborator
    returns, a step whose paths are all given returns status [EX_OK], the
    message that names them as stdout, and empty stderr.  The heap is not
    touched, the world is as the collaborator left it. *)
Theorem guarded_step_result s op st r w' :
  delegate s = Some op →
  op (world st) = (r, w') →
  match r with
  | Raises err =>
      call_step s st =
        (if isinstance_Exception err
         then Ok (mkStepExecutionResult EX_SOFTWARE "" (encode (exn_str err)))
         else Raise err,
         mkState (heap st) w')
  | Returns _ =>
      ∀ msg, success_message s = Some msg →
        call_step s st = (Ok (mkStepExecutionResult EX_OK msg ""), mkState (heap st) w')
  end.
Proof.
  intros Hop Hr.
  destruct s as [url path | src dest ov al ke | path | cmd c];
    simpl in Hop; inversion Hop; subst op; clear Hop;
    unfold call_step, try_except_Exception, step_failed, encode_dest;
    unfold_M; rewrite Hr; destruct r as [[] | err]; simpl.
  - by intros msg [= <-].
  - by destruct (isinstance_Exception err).
  - destruct dest as [dest |]; [| done].
    intros msg [= <-]. simpl. do 3 f_equal.
  - by destruct (isinstance_Exception err).
  - by intros msg [= <-].
  - by destruct (isinstance_Exception err).
Qed.

(** The slip next to it: [dest] defaults to [None] (line 90), and then
    [dest.encode] at line 104 raises after the archive was extracted; the
    handler turns that into a failure. *)
Lemma extract_step_without_dest src ov al ke st w' :
  xtract src None ov al ke (world st) = (Returns (), w') →
  call_step (extract_step src None ov al ke) st =
    (Ok (mkStepExecutionResult EX_SOFTWARE ""
           (encode (lit "'NoneType' object has no attribute 'encode'"))),
     mkState (heap st) w').
Proof.
  intros Hx. unfold call_step, try_except_Exception, step_failed, encode_dest.
  unfold_M. by rewrite Hx.
Qed.

(** What a command step does once its directory [d] is known. *)
Lemma cmd_step_unfold cmd c st cw :
  cells (heap st) !! c = Some cw →
  call_step (cmd_step cmd c) st =
    if str_truthy cw then run_process cmd cw st
    else match os_getcwd (world st) with
         | Returns d =>
             run_process cmd d (mkState (set_cells <[c := d]> (heap st)) (world st))
         | Raises e => (Raise e, st)
         end.
Proof.
  intros Hc. unfold call_step. unfold_M. rewrite Hc.
  destruct (str_truthy cw); [done |].
  by destruct (os_getcwd (world st)).
Qed.

(** C3.  A command step whose directory is [d] (the one it was created
    with, or the current one when that was empty) runs the process there.
    When the process is launched and ends, the step returns its exit code,
    whatever it is, with its output; when the launch fails, the exception
    leaves the step, and leaves the call of any Hook that reached the
    step. *)
Theorem cmd_step_exit_code_or_launch_failure cmd c st cw d r w' :
  cells (heap st) !! c = Some cw →
  (if str_truthy cw then d = cw else os_getcwd (world st) = Returns d) →
  subprocess_run cmd d (world st) = (r, w') →
  let st' :=
    mkState (if str_truthy cw then heap st else set_cells <[c := d]> (heap st)) w' in
  match r with
  | Returns p =>
      call_step (cmd_step cmd c) st =
        (Ok (mkStepExecutionResult (returncode p) (p_stdout p) (p_stderr p)), st')
  | Raises e =>
      call_step (cmd_step cmd c) st = (Raise e, st') ∧
      ∀ st0 self h before after rs,
        hooks (heap st0) !! self = Some h →
        Hook.steps h = before ++ cmd_step cmd c :: after →
        steps_return before st0 rs st →
        Hook_call self st0 = (Raise e, st')
  end.
Proof.
  intros Hc Hd Hr st'.
  assert (call_step (cmd_step cmd c) st =
            (match r with
             | Returns p =>
                 Ok (mkStepExecutionResult (returncode p) (p_stdout p) (p_stderr p))
             | Raises e => Raise e
             end, st')) as Hstep.
  { rewrite (cmd_step_unfold _ _ _ _ Hc). subst st'.
    destruct (str_truthy cw).
    - subst d. unfold run_process. unfold_M. rewrite Hr. by destruct r.
    - rewrite Hd. unfold run_process. unfold_M. simpl. rewrite Hr. by destruct r. }
  destruct r as [p | e]; [done |].
  split; [done |].
  intros st0 self h before after rs Hh Hsteps Hbefore.
  rewrite (Hook_call_unfold _ _ _ Hh), Hsteps.
  by eapply run_steps_Raise.
Qed.

(** No step writes the [cwd] of a command closure once it is not empty. *)
Lemma call_step_keeps_resolved_cwd s st o st' c d :
  cells (heap st) !! c = Some d → d ≠ [] →
  call_step s st = (o, st') →
  cells (heap st') !! c = Some d.
Proof.
  intros Hc Hd.
  destruct s as [url path | src dest ov al ke | path | cmd c'];
    unfold call_step, try_except_Exception, step_failed, encode_dest, run_process;
    unfold_M.
  - destruct (http_get_to_file url path (world st)) as [[[]|e] w]; simpl;
      [| destruct (isinstance_Exception e)]; by intros [= <- <-].
  - destruct (xtract src dest ov al ke (world st)) as [[[]|e] w]; simpl;
      [destruct dest; simpl | destruct (isinstance_Exception e)];
      by intros [= <- <-].
  - destruct (shutil_rmtree path (world st)) as [[[]|e] w]; simpl;
      [| destruct (isinstance_Exception e)]; by intros [= <- <-].
  - destruct (cells (heap st) !! c') as [cw |] eqn:Hc'; [| by intros [= <- <-]].
    destruct (str_truthy cw) eqn:Hcw.
    + destruct (subprocess_run cmd cw (world st)) as [[p|e] w];
        by intros [= <- <-].
    + assert (c' ≠ c) as Hne.
      { intros ->. assert (cw = d) as -> by congruence. by destruct d. }
      destruct (os_getcwd (world st)) as [d' | e]; simpl; [| by intros [= <- <-]].
      destruct (subprocess_run cmd d' (world st)) as [[p|e] w]; simpl;
        intros [= <- <-]; simpl; by rewrite lookup_insert_ne.
Qed.

(** C9.  A command step created with an empty [cwd] (its variable holds
    the empty string until the step is called, see [constructor_appends])
    asks for the current directory when it is first called, runs its process
    there, and keeps the answer [d] in its [cwd] variable.  From then on, in whatever state and
    world it is called, it runs its process in [d] without asking again, and
    no call of any step changes the variable.  ([os.getcwd] returns an
    absolute path, which is not empty.) *)
Theorem cmd_step_resolves_cwd_once cmd c st d :
  cells (heap st) !! c = Some [] →
  os_getcwd (world st) = Returns d →
  d ≠ [] →
  call_step (cmd_step cmd c) st =
    run_process cmd d (mkState (set_cells <[c := d]> (heap st)) (world st))
  ∧ cells (heap (snd (call_step (cmd_step cmd c) st))) !! c = Some d
  ∧ (∀ st2, cells (heap st2) !! c = Some d →
       call_step (cmd_step cmd c) st2 = run_process cmd d st2)
  ∧ (∀ s st2 o st3, cells (heap st2) !! c = Some d →
       call_step s st2 = (o, st3) → cells (heap st3) !! c = Some d).
Proof.
  intros Hc Hcwd Hd.
  assert (call_step (cmd_step cmd c) st =
    run_process cmd d (mkState (set_cells <[c := d]> (heap st)) (world st))) as H1.
  { rewrite (cmd_step_unfold _ _ _ _ Hc). simpl. by rewrite Hcwd. }
  split; [done |]. split.
  { rewrite H1. unfold run_process. unfold_M. simpl.
    destruct (subprocess_run cmd d (world st)) as [[p|e] w]; simpl;
      by rewrite lookup_insert_eq. }
  split.
  - intros st2 Hc2. rewrite (cmd_step_unfold _ _ _ _ Hc2).
    by destruct d.
  - intros s st2 o st3 Hc2 Hs. by eapply call_step_keeps_resolved_cwd.
Qed.

End Step_properties.

Section Recipe_properties.
Context {World : Type} `{!Collaborators World}.

Implicit Types (st : State World) (r : Recipe.t).

Lemma forallb_success rs :
  forallb (λ x, return_code x =? 0) rs = true
  ↔ Forall (λ x, return_code x = EX_OK) rs.
Proof.
  rewrite forallb_forall, Forall_forall. unfold EX_OK.
  split; intros H x Hx.
  - apply Z.eqb_eq, H. by apply list_elem_of_In.
  - apply Z.eqb_eq, H. by apply list_elem_of_In.
Qed.

(** C6.  When the call of the is-updated Hook returns the results [rs],
    [Recipe.is_updated] returns, and what it returns is true exactly when
    every result of [rs] has status 0; one status other than 0, wherever it
    is in [rs], makes it false. *)
Theorem is_updated_iff_all_success r l st rs st' :
  Recipe.is_updated_hook r = Some l →
  Hook_call l st = (Ok rs, st') →
  ∃ b, Recipe_is_updated r st = (Ok b, st')
       ∧ (b = true ↔ Forall (λ x, return_code x = EX_OK) rs)
       ∧ (∀ x, x ∈ rs → return_code x ≠ 0 → b = false).
Proof.
  intros Hl Hcall.
  exists (forallb (λ x, return_code x =? 0) rs).
  split; [| split].
  - unfold Recipe_is_updated, call_hook_field. rewrite Hl.
    unfold mbind, M_bind. by rewrite Hcall.
  - apply forallb_success.
  - intros x Hx Hne. apply not_true_is_false.
    intros Hall%forallb_success. rewrite Forall_forall in Hall.
    by apply Hne, Hall.
Qed.

(** C10.  An is-updated Hook without steps makes [Recipe.is_updated] return
    true, and nothing is run. *)
Theorem is_updated_of_empty_hook r l st description :
  Recipe.is_updated_hook r = Some l →
  hooks (heap st) !! l = Some (Hook.mk [] description) →
  Hook_call l st = (Ok [], st) ∧ Recipe_is_updated r st = (Ok true, st).
Proof.
  intros Hl Hh.
  assert (Hook_call l st = (Ok [], st)) as Hcall
    by by rewrite (Hook_call_unfold _ _ _ Hh).
  split; [done |].
  unfold Recipe_is_updated, call_hook_field. rewrite Hl.
  unfold mbind, M_bind. by rewrite Hcall.
Qed.

End Recipe_properties.

Section Builder_properties.
Context {World : Type} `{!Collaborators World}.

Implicit Types (st : State World) (b : Builder.t) (self : loc).

Lemma check_current_hook_None st self b :
  builders (heap st) !! self = Some b →
  Builder._current_hook b = None →
  Builder__check_current_hook self st =
    (Raise (Exn CurrentHooksNotSet (lit "No hook set for " ++ Builder.name b)), st).
Proof.
  intros Hb Hcur. unfold Builder__check_current_hook. unfold_M.
  by rewrite Hb, Hcur.
Qed.

(** The Builder that [recipe] makes has no current hook. *)
Lemma recipe_has_no_current_hook name description st :
  ∃ self b st',
    recipe name description st = (Ok self, st')
    ∧ builders (heap st') !! self = Some b
    ∧ Builder._current_hook b = None
    ∧ hooks (heap st') = hooks (heap st).
Proof.
  eexists _, _, _. split; [reflexivity |]. simpl.
  split; [apply lookup_insert_eq | done].
Qed.

(** C5.  On a Builder whose current hook is not set, which is every Builder
    until one of the selection methods is called on it, each of download,
    extract, rm and cmd raises [CurrentHooksNotSet] with a message that ends
    in the name of the Builder, and leaves the whole state as it was: no
    Hook gets a step and no field of the Builder changes. *)
Theorem step_constructor_without_current_hook st self b :
  builders (heap st) !! self = Some b →
  Builder._current_hook b = None →
  let failure : outcome loc * State World :=
    (Raise (Exn CurrentHooksNotSet (lit "No hook set for " ++ Builder.name b)), st) in
  (∀ url path, Builder_download self url path st = failure)
  ∧ (∀ src dest overwrite all_ keep_intermediate,
       Builder_extract self src dest overwrite all_ keep_intermediate st = failure)
  ∧ (∀ path, Builder_rm self path st = failure)
  ∧ (∀ cmd cwd, Builder_cmd self cmd cwd st = failure).
Proof.
  intros Hb Hcur failure.
  pose proof (check_current_hook_None _ _ _ Hb Hcur) as Hcheck.
  repeat split; intros;
    unfold Builder_download, Builder_extract, Builder_rm, Builder_cmd;
    unfold mbind at 1; unfold M_bind; by rewrite Hcheck.
Qed.


(** [to_recipe] as one test on the Builder and the environment. *)
Lemma to_recipe_unfold st self b :
  builders (heap st) !! self = Some b →
  hooks_exist (heap st) b →
  ∃ msg,
    Builder_to_recipe self st =
      (if negb (hook_truthy (Builder.install_hook b)
                && hook_truthy (Builder.uninstall_hook b))
          && negb (DEVM_DEBUG (world st))
       then Raise (Exn HooksMissing msg)
       else Ok (Recipe.mk (Builder.name b) (Some [])
                  (Builder.install_hook b) (Builder.uninstall_hook b)
                  (Builder.update_hook b) (Builder.is_updated_hook b)),
       st).
Proof.
  intros Hb [_ Hslots].
  assert (∀ k, ∃ s, format_hook (Builder.slot k b) st = (Ok s, st)) as Hfmt.
  { intros k. destruct (Builder.slot k b) as [l |] eqn:Hk.
    - destruct (Hslots k l Hk) as [h Hh]. exists (repr_Hook h).
      unfold format_hook. unfold_M. by rewrite Hh.
    - by exists (lit "None"). }
  destruct (Hfmt install_kind) as [si Hsi], (Hfmt uninstall_kind) as [su Hsu].
  simpl in Hsi, Hsu.
  unfold Builder_to_recipe. unfold_M. rewrite Hb.
  destruct (negb (hook_truthy _ && hook_truthy _)); simpl.
  - destruct (DEVM_DEBUG (world st)); simpl.
    + by exists [].
    + rewrite Hsi, Hsu. eauto.
  - by exists [].
Qed.

(** C4.  [to_recipe] raises [HooksMissing] exactly when the install hook or
    the uninstall hook is not set and the override is off, the override
    being on when [DEVM_DEBUG] is in the environment with a value that is
    not empty.  With the override on it returns a Recipe whatever hooks are
    set.  It never changes the state, so after a failure the Builder is as
    it was. *)
Theorem to_recipe_HooksMissing st self b :
  builders (heap st) !! self = Some b →
  hooks_exist (heap st) b →
  ((∃ msg, Builder_to_recipe self st = (Raise (Exn HooksMissing msg), st))
     ↔ (Builder.install_hook b = None ∨ Builder.uninstall_hook b = None)
        ∧ DEVM_DEBUG (world st) = false)
  ∧ (DEVM_DEBUG (world st) = true → ∃ r, Builder_to_recipe self st = (Ok r, st))
  ∧ (∀ o st', Builder_to_recipe self st = (o, st') → st' = st).
Proof.
  intros Hb Hex.
  destruct (to_recipe_unfold _ _ _ Hb Hex) as [msg ->].
  split; [| split].
  - destruct (Builder.install_hook b), (Builder.uninstall_hook b),
      (DEVM_DEBUG (world st)); simpl; split;
      try (by intros [? [=]]); try (by intros [[[=] | [=]] ?]); eauto.
  - intros ->. rewrite andb_false_r. eauto.
  - by intros o st' [= _ <-].
Qed.

End Builder_properties.

Section Selection_properties.
Context {World : Type} `{!Collaborators World}.

Implicit Types (st : State World) (b : Builder.t) (self l : loc) (hp : Heap).

Lemma fresh_hook_None hp : hooks hp !! fresh (dom (hooks hp)) = None.
Proof. apply not_elem_of_dom, is_fresh. Qed.

Lemma fresh_cell_None hp : cells hp !! fresh (dom (cells hp)) = None.
Proof. apply not_elem_of_dom, is_fresh. Qed.

Lemma hooks_grow_same hp hp' : hooks hp' = hooks hp → hooks_grow hp hp'.
Proof. intros Heq l [ss d] Hl. exists []. by rewrite Heq, app_nil_r. Qed.

Lemma hooks_grow_trans hp1 hp2 hp3 :
  hooks_grow hp1 hp2 → hooks_grow hp2 hp3 → hooks_grow hp1 hp3.
Proof.
  intros H12 H23 l h Hl.
  destruct (H12 l h Hl) as [ss Hl2].
  destruct (H23 l _ Hl2) as [ss' Hl3]. simpl in Hl3.
  exists (ss ++ ss'). by rewrite app_assoc.
Qed.

Lemma slots_kept_trans hp1 hp2 hp3 self :
  slots_kept hp1 hp2 self → slots_kept hp2 hp3 self → slots_kept hp1 hp3 self.
Proof.
  intros H12 H23 b Hb.
  destruct (H12 b Hb) as (b2 & Hb2 & Hk2).
  destruct (H23 b2 Hb2) as (b3 & Hb3 & Hk3).
  exists b3. split; [done |]. eauto.
Qed.

Lemma made_by_mono hp hp' c s :
  cells hp ⊆ cells hp' → made_by hp c s → made_by hp' c s.
Proof.
  intros Hsub. destruct c; simpl; try done.
  intros (cell & -> & Hcell). exists cell. split; [done |].
  by eapply lookup_weaken.
Qed.

Lemma slot_set_current_hook k o b :
  Builder.slot k (Builder.set_current_hook o b) = Builder.slot k b.
Proof. by destruct k. Qed.

Lemma slot_set_slot k k' o b :
  Builder.slot k (Builder.set_slot k' o b) =
    if decide (k = k') then o else Builder.slot k b.
Proof. by destruct k, k'. Qed.

(** A step constructor on a Builder with a current hook appends one step,
    the one it makes, to that Hook, and returns the Builder. *)
Lemma constructor_appends st self b l h c :
  builders (heap st) !! self = Some b →
  Builder._current_hook b = Some l →
  hooks (heap st) !! l = Some h →
  is_step_constructor c →
  ∃ s st',
    run_method self c st = (Ok self, st')
    ∧ hooks (heap st') =
        <[l := Hook.mk (Hook.steps h ++ [s]) (Hook.description h)]> (hooks (heap st))
    ∧ builders (heap st') = builders (heap st)
    ∧ cells (heap st) ⊆ cells (heap st')
    ∧ world st' = world st
    ∧ made_by (heap st') c s.
Proof.
  intros Hb Hcur Hh Hc.
  destruct c as [k d | url path | src dest ov al ke | path | cmd cwd];
    [done | | | |];
    unfold run_method, Builder_download, Builder_extract, Builder_rm, Builder_cmd,
      Builder__check_current_hook, append_to_current_hook, new_cell;
    unfold_M; simpl; rewrite Hb, Hcur; simpl; rewrite ?Hb, ?Hcur, ?Hh; simpl;
    rewrite ?Hh; simpl;
    (eexists _, _; split; [reflexivity |]); simpl; repeat split; try done.
  - apply insert_subseteq, fresh_cell_None.
  - eexists. split; [done |]. apply lookup_insert_eq.
Qed.

Lemma hooks_exist_grow hp hp' b :
  hooks_grow hp hp' → hooks_exist hp b → hooks_exist hp' b.
Proof.
  intros Hgrow [Hcur Hslots]. split.
  - intros l [h Hh]%Hcur. destruct (Hgrow l h Hh) as [ss Hl]. eauto.
  - intros k l [h Hh]%Hslots. destruct (Hgrow l h Hh) as [ss Hl]. eauto.
Qed.

Lemma hooks_grow_insert hp hp' l h ss :
  hooks hp !! l = Some h →
  hooks hp' = <[l := Hook.mk (Hook.steps h ++ ss) (Hook.description h)]> (hooks hp) →
  hooks_grow hp hp'.
Proof.
  intros Hl Heq l' h' Hl'. rewrite Heq.
  destruct (decide (l = l')) as [<- | Hne].
  - rewrite lookup_insert_eq. exists ss. congruence.
  - rewrite lookup_insert_ne by done. exists []. rewrite app_nil_r.
    by destruct h'.
Qed.

(** A selection method on a Builder that has the Hook already: only the
    current hook changes. *)
Lemma select_existing st self b k d l :
  builders (heap st) !! self = Some b →
  Builder.slot k b = Some l →
  Builder_select k self d st =
    (Ok self,
     mkState (set_builders <[self := Builder.set_current_hook (Some l) b]> (heap st))
             (world st)).
Proof.
  intros Hb Hk. unfold Builder_select. unfold_M. rewrite Hb, Hk. simpl.
  by rewrite Hb, Hk.
Qed.

(** A selection method on a Builder that has no Hook of the kind: a new
    Hook without steps is made, stored, and becomes the current hook. *)
Lemma select_new st self b k d :
  builders (heap st) !! self = Some b →
  Builder.slot k b = None →
  let l := fresh (dom (hooks (heap st))) in
  Builder_select k self d st =
    (Ok self,
     mkState
       (mkHeap (<[l := Hook.mk [] (Some d)]> (hooks (heap st)))
               (cells (heap st))
               (<[self := Builder.set_current_hook (Some l)
                            (Builder.set_slot k (Some l) b)]> (builders (heap st))))
       (world st)).
Proof.
  intros Hb Hk l. unfold Builder_select, new_hook. unfold_M. rewrite Hb, Hk. simpl.
  rewrite lookup_insert_eq. unfold set_builders. simpl.
  rewrite insert_insert_eq, slot_set_slot. by rewrite decide_True.
Qed.

(** What every call of a selection method ensures. *)
Lemma select_spec st self b k d :
  builders (heap st) !! self = Some b →
  hooks_exist (heap st) b →
  ∃ l st' b',
    Builder_select k self d st = (Ok self, st')
    ∧ builders (heap st') !! self = Some b'
    ∧ Builder._current_hook b' = Some l
    ∧ Builder.slot k b' = Some l
    ∧ hooks_exist (heap st') b'
    ∧ (∀ k' l', Builder.slot k' b = Some l' → Builder.slot k' b' = Some l')
    ∧ hooks_grow (heap st) (heap st')
    ∧ cells (heap st') = cells (heap st)
    ∧ world st' = world st
    ∧ (Builder.slot k b = None →
         hooks (heap st) !! l = None
         ∧ hooks (heap st') !! l = Some (Hook.mk [] (Some d))).
Proof.
  intros Hb Hex.
  destruct (Builder.slot k b) as [l |] eqn:Hk.
  - exists l. eexists _, _. split; [by apply select_existing |]. simpl.
    split; [apply lookup_insert_eq |].
    split; [done |].
    split; [by rewrite slot_set_current_hook |].
    split.
    { destruct Hex as [Hcur Hslots]. split; simpl.
      - intros l' [= <-]. eauto.
      - intros k' l'. rewrite slot_set_current_hook. eauto. }
    split; [intros k' l'; by rewrite slot_set_current_hook |].
    split; [by apply hooks_grow_same |]. done.
  - set (l := fresh (dom (hooks (heap st)))).
    pose proof (fresh_hook_None (heap st)) as Hfresh. fold l in Hfresh.
    exists l. eexists _, _. split; [by apply select_new |]. simpl.
    split; [apply lookup_insert_eq |].
    split; [done |].
    split; [rewrite slot_set_current_hook, slot_set_slot; by rewrite decide_True |].
    assert (∀ l' : loc, is_Some (hooks (heap st) !! l') →
              is_Some (<[l := Hook.mk [] (Some d)]> (hooks (heap st)) !! l')) as Hkeep.
    { intros l' Hl'. rewrite lookup_insert. case_decide; [done | done]. }
    split.
    { destruct Hex as [Hcur Hslots]. split; simpl.
      - intros l' [= <-]. by rewrite lookup_insert_eq.
      - intros k' l'. rewrite slot_set_current_hook, slot_set_slot.
        case_decide.
        + intros [= <-]. by rewrite lookup_insert_eq.
        + intros Hk'. apply Hkeep. eauto. }
    split.
    { intros k' l'. rewrite slot_set_current_hook, slot_set_slot.
      case_decide; [| done]. subst k'. rewrite Hk. by intros [=]. }
    split.
    { intros l' h' Hl'. simpl. exists []. rewrite app_nil_r.
      rewrite lookup_insert_ne; [by destruct h' |].
      intros Heq. rewrite <- Heq, fresh_hook_None in Hl'. done. }
    do 2 (split; [done |]). intros _. split; [done | apply lookup_insert_eq].
Qed.

(** Once a Hook is selected, every call of a chain succeeds and returns the
    Builder; Hooks only get steps at their end, and the fields of the
    Builder keep the Hooks they hold. *)
Lemma run_method_selected st self c :
  selected (heap st) self →
  ∃ st',
    run_method self c st = (Ok self, st')
    ∧ selected (heap st') self
    ∧ hooks_grow (heap st) (heap st')
    ∧ slots_kept (heap st) (heap st') self
    ∧ cells (heap st) ⊆ cells (heap st')
    ∧ world st' = world st.
Proof.
  intros (b & Hb & Hex & [lc Hcur]).
  assert (is_step_constructor c ∨ ∃ k d, c = call_select k d)
    as [Hc | (k & d & ->)] by (destruct c; simpl; eauto).
  - destruct (proj1 Hex lc Hcur) as [h Hh].
    destruct (constructor_appends _ _ _ _ _ c Hb Hcur Hh Hc)
      as (s & st' & Hrun & Hhooks & Hbs & Hcells & Hw & _).
    assert (hooks_grow (heap st) (heap st')) as Hgrow
      by by eapply hooks_grow_insert.
    exists st'. split; [done |]. split.
    { exists b. rewrite Hbs. split; [done |]. split; [| by eauto].
      by eapply hooks_exist_grow. }
    split; [done |]. split; [| done].
    intros b0 Hb0. exists b0. by rewrite Hbs.
  - destruct (select_spec _ _ _ k d Hb Hex)
      as (l & st' & b' & Hrun & Hb' & Hcur' & Hk & Hex' & Hkept & Hgrow & Hcells & Hw & _).
    exists st'. split; [done |]. split.
    { exists b'. eauto. }
    split; [done |]. split; [| by rewrite Hcells].
    intros b0 Hb0. assert (b0 = b) as -> by congruence. eauto.
Qed.

Lemma chain_selected cs : ∀ st self,
  selected (heap st) self →
  ∃ st',
    chain self cs st = (Ok self, st')
    ∧ selected (heap st') self
    ∧ hooks_grow (heap st) (heap st')
    ∧ slots_kept (heap st) (heap st') self
    ∧ cells (heap st) ⊆ cells (heap st')
    ∧ world st' = world st.
Proof.
  induction cs as [| c cs IH]; intros st self Hsel.
  - exists st. split; [done |]. split; [done |].
    split; [by apply hooks_grow_same |]. split; [| done].
    intros b Hb. eauto.
  - destruct (run_method_selected _ _ c Hsel)
      as (st1 & Hrun & Hsel1 & Hgrow1 & Hkept1 & Hcells1 & Hw1).
    destruct (IH st1 self Hsel1)
      as (st2 & Hchain & Hsel2 & Hgrow2 & Hkept2 & Hcells2 & Hw2).
    exists st2. split.
    { simpl. unfold mbind, M_bind. by rewrite Hrun. }
    split; [done |].
    split; [by eapply hooks_grow_trans |].
    split; [by eapply slots_kept_trans |].
    split; [by etrans | congruence].
Qed.

(** A window of step constructors appends its steps, in its order, to the
    current hook, and changes no other Hook and no Builder. *)
Lemma chain_window w : ∀ st self b l h,
  builders (heap st) !! self = Some b →
  Builder._current_hook b = Some l →
  hooks (heap st) !! l = Some h →
  Forall is_step_constructor w →
  ∃ ss st',
    chain self w st = (Ok self, st')
    ∧ hooks (heap st') =
        <[l := Hook.mk (Hook.steps h ++ ss) (Hook.description h)]> (hooks (heap st))
    ∧ builders (heap st') = builders (heap st)
    ∧ cells (heap st) ⊆ cells (heap st')
    ∧ world st' = world st
    ∧ Forall2 (made_by (heap st')) w ss.
Proof.
  induction w as [| c w IH]; intros st self b l h Hb Hcur Hh Hw.
  - exists [], st. split; [done |]. rewrite app_nil_r.
    split; [| by repeat split].
    destruct h. by rewrite insert_id.
  - inversion Hw as [| ? ? Hc Hw']; subst.
    destruct (constructor_appends _ _ _ _ _ c Hb Hcur Hh Hc)
      as (s & st1 & Hrun & Hhooks1 & Hbs1 & Hcells1 & Hw1 & Hmade).
    assert (hooks (heap st1) !! l
            = Some (Hook.mk (Hook.steps h ++ [s]) (Hook.description h))) as Hh1
      by (rewrite Hhooks1; apply lookup_insert_eq).
    rewrite <- Hbs1 in Hb.
    destruct (IH st1 self b l _ Hb Hcur Hh1 Hw')
      as (ss & st2 & Hchain & Hhooks2 & Hbs2 & Hcells2 & Hw2 & Hmade2).
    simpl in Hhooks2.
    exists (s :: ss), st2. split.
    { simpl. unfold mbind, M_bind. by rewrite Hrun. }
    split.
    { rewrite Hhooks2, Hhooks1, insert_insert_eq. by rewrite <- app_assoc. }
    split; [congruence |].
    split; [by etrans |].
    split; [congruence |].
    constructor; [by eapply made_by_mono | done].
Qed.

Lemma chain_app cs1 cs2 : ∀ st self,
  chain self (cs1 ++ cs2) st = (b ← chain self cs1; chain b cs2) st.
Proof.
  induction cs1 as [| c cs1 IH]; intros st self; simpl.
  - done.
  - unfold mbind, M_bind in *.
    destruct (run_method self c st) as [[b | e |] st'] eqn:Hrun;
      [apply IH | done | done].
Qed.

(** C7.  Take a Builder and a kind [k].  The first call of the selection
    method of [k] makes a Hook [l] the current hook (a new Hook without
    steps when the Builder had none of that kind).  Let a window [w1] of
    step constructors follow, then any calls [mid], then the selection
    method of [k] again, then a window [w2].  Every call returns the
    Builder.  The second selection finds [l] still in the field of [k],
    creates nothing, changes no Hook, and only makes [l] the current hook
    again.  At the end [l] holds the steps it had at the first selection,
    then those of [w1], then what [mid] appended to it, then those of [w2],
    each step the one its constructor call makes, in the order of the
    calls. *)
Theorem reselect_reenters_hook st self b k d1 d2 w1 mid w2 :
  builders (heap st) !! self = Some b →
  hooks_exist (heap st) b →
  Forall is_step_constructor w1 →
  Forall is_step_constructor w2 →
  ∃ l h st1 ss1 ssm st2 b2 ss2 st3,
    Builder_select k self d1 st = (Ok self, st1)
    ∧ hooks (heap st1) !! l = Some h
    ∧ (Builder.slot k b = None →
         hooks (heap st) !! l = None ∧ h = Hook.mk [] (Some d1))
    ∧ chain self (w1 ++ mid) st1 = (Ok self, st2)
    ∧ builders (heap st2) !! self = Some b2
    ∧ Builder.slot k b2 = Some l
    ∧ hooks (heap st2) !! l
        = Some (Hook.mk (Hook.steps h ++ ss1 ++ ssm) (Hook.description h))
    ∧ Builder_select k self d2 st2 =
        (Ok self,
         mkState (set_builders <[self := Builder.set_current_hook (Some l) b2]> (heap st2))
                 (world st2))
    ∧ chain self (call_select k d2 :: w2) st2 = (Ok self, st3)
    ∧ builders (heap st3) !! self = Some (Builder.set_current_hook (Some l) b2)
    ∧ hooks (heap st3) !! l
        = Some (Hook.mk (Hook.steps h ++ ss1 ++ ssm ++ ss2) (Hook.description h))
    ∧ Forall2 (made_by (heap st3)) w1 ss1
    ∧ Forall2 (made_by (heap st3)) w2 ss2
    ∧ chain self (call_select k d1 :: w1 ++ mid ++ call_select k d2 :: w2) st
        = (Ok self, st3).
Proof.
  intros Hb Hex Hw1 Hw2.
  (* the first selection *)
  destruct (select_spec _ _ _ k d1 Hb Hex)
    as (l & st1 & b1 & Hsel1 & Hb1 & Hcur1 & Hk1 & Hex1 & _ & _ & _ & _ & Hnew).
  destruct (proj1 Hex1 l Hcur1) as [h Hh].
  (* the first window *)
  destruct (chain_window w1 _ _ _ _ _ Hb1 Hcur1 Hh Hw1)
    as (ss1 & st1' & Hch1 & Hhooks1 & Hbs1 & Hcells1 & _ & Hmade1).
  assert (hooks (heap st1') !! l
          = Some (Hook.mk (Hook.steps h ++ ss1) (Hook.description h))) as Hh1
    by (rewrite Hhooks1; apply lookup_insert_eq).
  assert (selected (heap st1') self) as Hsel.
  { exists b1. rewrite Hbs1. split; [done |]. split; [| by eauto].
    eapply hooks_exist_grow; [| done]. by eapply hooks_grow_insert. }
  (* the calls in between *)
  destruct (chain_selected mid _ _ Hsel)
    as (st2 & Hchm & _ & Hgrow & Hkept & Hcells2 & _).
  destruct (Hgrow l _ Hh1) as [ssm Hh2]. simpl in Hh2.
  rewrite <- Hbs1 in Hb1.
  destruct (Hkept b1 Hb1) as (b2 & Hb2 & Hk2). specialize (Hk2 k l Hk1).
  (* the second selection and the second window *)
  pose proof (select_existing _ _ _ k d2 _ Hb2 Hk2) as Hsel2.
  set (st2' := mkState
      (set_builders <[self := Builder.set_current_hook (Some l) b2]> (heap st2))
      (world st2)) in *.
  assert (builders (heap st2') !! self
          = Some (Builder.set_current_hook (Some l) b2)) as Hb2'
    by apply lookup_insert_eq.
  destruct (chain_window w2 st2' self _ l _ Hb2' eq_refl Hh2 Hw2)
    as (ss2 & st3 & Hch2 & Hhooks3 & Hbs3 & Hcells3 & _ & Hmade2).
  simpl in Hhooks3.
  assert (chain self (call_select k d2 :: w2) st2 = (Ok self, st3)) as Hch2'.
  { cbn [chain run_method]. unfold mbind at 1. unfold M_bind at 1.
    by rewrite Hsel2. }
  assert (chain self (w1 ++ mid) st1 = (Ok self, st2)) as Hch1m.
  { rewrite chain_app. unfold mbind, M_bind. by rewrite Hch1. }
  exists l, h, st1, ss1, ssm, st2, b2, ss2, st3.
  split; [done |]. split; [done |]. split.
  { intros Hnone. destruct (Hnew Hnone) as [Hfresh Hl]. split; [done |]. congruence. }
  split; [done |]. split; [done |]. split; [done |]. split.
  { rewrite Hh2. by rewrite <- app_assoc. }
  split; [done |]. split; [done |]. split; [by rewrite Hbs3 |]. split.
  { rewrite Hhooks3, lookup_insert_eq. by rewrite <- !app_assoc. }
  split.
  { eapply Forall2_impl; [done |]. intros c s. apply made_by_mono.
    etrans; [done |]. etrans; [done |]. done. }
  split; [done |].
  cbn [chain run_method]. unfold mbind at 1. unfold M_bind at 1. rewrite Hsel1.
  rewrite app_assoc, chain_app. unfold mbind at 1. unfold M_bind at 1.
  by rewrite Hch1m.
Qed.

End Selection_properties.

(** * The properties at work in the small world *)

(** The install hook of [Sim.tool]: the removal fails, the download is made
    all the same, and both results come back. *)
Lemma Hook_call_runs_every_step_witness :
  let h := Hook.mk [rm_step (lit "old");
                    download_step (lit "http://host/a.zip") (lit "b.zip")]
                   (Some (lit "install")) in
  let rs := [Sim.no_such_file "old";
             mkStepExecutionResult 0 "downloaded to b.zip" ""] in
  let st' := snd (Hook_call 1%positive Sim.tool) in
  hooks (heap Sim.tool) !! 1%positive = Some h
  ∧ Hook_call 1%positive Sim.tool = (Ok rs, st')
  ∧ steps_return (Hook.steps h) Sim.tool rs st'
  ∧ length rs = length (Hook.steps h).
Proof.
  intros h rs st'.
  assert (hooks (heap Sim.tool) !! 1%positive = Some h) as Hh
    by (vm_compute; reflexivity).
  assert (Hook_call 1%positive Sim.tool = (Ok rs, st')) as Hcall
    by (vm_compute; reflexivity).
  destruct (Hook_call_runs_every_step Sim.tool 1%positive h rs st' Hh)
    as (Hiff & Hlen & _).
  split; [exact Hh |]. split; [exact Hcall |].
  split; [exact (proj1 Hiff Hcall) | exact (Hlen Hcall)].
Defined.

(** C1 as the claim has it fails: the install hook of [Sim.broken] has two
    steps, the program of the first cannot be launched, and the call of the
    Hook raises instead of returning two results; the second step is not
    run (the log has one entry). *)
Lemma Hook_call_counterexample :
  (∃ h, hooks (heap Sim.broken) !! 1%positive = Some h
        ∧ length (Hook.steps h) = 2%nat)
  ∧ fst (Hook_call 1%positive Sim.broken)
      = Raise (Sim.FileNotFoundError (lit "no-such-program"))
  ∧ Sim.log (world (snd (Hook_call 1%positive Sim.broken)))
      = [Sim.ev_run [lit "no-such-program"] (lit "/home")]
  ∧ ¬ ∃ rs st', Hook_call 1%positive Sim.broken = (Ok rs, st')
                ∧ length rs = 2%nat.
Proof.
  split; [eexists; split; vm_compute; reflexivity |].
  split; [vm_compute; reflexivity |].
  split; [vm_compute; reflexivity |].
  intros (rs & st' & Hcall & _).
  apply (f_equal fst) in Hcall. vm_compute in Hcall. discriminate.
Qed.

(** A removal that fails and a download that is made. *)
Lemma guarded_step_result_witness :
  (shutil_rmtree (lit "old") (world Sim.st0)
     = (Raises (Sim.FileNotFoundError (lit "old")),
        Sim.logged (Sim.ev_rmtree (lit "old")) Sim.w0)
   ∧ call_step (rm_step (lit "old")) Sim.st0
     = (Ok (Sim.no_such_file "old"),
        mkState (heap Sim.st0) (Sim.logged (Sim.ev_rmtree (lit "old")) Sim.w0)))
  ∧ (∃ w', http_get_to_file (lit "http://host/a.zip") (lit "b.zip") (world Sim.st0)
             = (Returns (), w')
           ∧ call_step (download_step (lit "http://host/a.zip") (lit "b.zip")) Sim.st0
             = (Ok (mkStepExecutionResult 0 "downloaded to b.zip" ""),
                mkState (heap Sim.st0) w')).
Proof.
  split.
  - split; [reflexivity |].
    exact (guarded_step_result (rm_step (lit "old")) _ Sim.st0 _ _
             eq_refl eq_refl).
  - eexists. split; [reflexivity |].
    exact (guarded_step_result
             (download_step (lit "http://host/a.zip") (lit "b.zip")) _ Sim.st0
             (Returns ()) _ eq_refl eq_refl _ eq_refl).
Defined.

(** C2 as the claim has it fails.  Ctrl-C during the removal: the error is
    only under [BaseException], [except Exception] lets it through, and the
    call of the step raises.  And an extraction that succeeded, with [dest]
    left to its default: the step reports a failure. *)
Lemma guarded_step_counterexample :
  fst (shutil_rmtree (lit "a.zip") (world Sim.interrupted))
    = Raises Sim.KeyboardInterrupt
  ∧ fst (call_step (rm_step (lit "a.zip")) Sim.interrupted)
    = Raise Sim.KeyboardInterrupt
  ∧ fst (xtract (lit "a.zip") None false false false (world Sim.st0))
    = Returns ()
  ∧ fst (call_step (extract_step (lit "a.zip") None false false false) Sim.st0)
    = Ok (mkStepExecutionResult 70 ""
            "'NoneType' object has no attribute 'encode'").
Proof. repeat split; vm_compute; reflexivity. Qed.

(** [sh -c "exit 7"] gives status 7, and the program that is not there makes
    the call of the install hook of [Sim.broken] raise. *)
Lemma cmd_step_exit_code_or_launch_failure_witness :
  (∃ st', call_step (cmd_step [lit "sh"; lit "-c"; lit "exit 7"] 2%positive) Sim.tool
          = (Ok (mkStepExecutionResult 7 "" ""), st'))
  ∧ (∃ st', Hook_call 1%positive Sim.broken
            = (Raise (Sim.FileNotFoundError (lit "no-such-program")), st')).
Proof.
  split.
  - eexists.
    exact (cmd_step_exit_code_or_launch_failure
             [lit "sh"; lit "-c"; lit "exit 7"] 2%positive Sim.tool
             (lit "/tmp") (lit "/tmp") (Returns (mkCompletedProcess 7 "" "")) _
             eq_refl eq_refl eq_refl).
  - eexists.
    refine (proj2 (cmd_step_exit_code_or_launch_failure
                     [lit "no-such-program"] 1%positive Sim.broken
                     [] (lit "/home")
                     (Raises (Sim.FileNotFoundError (lit "no-such-program"))) _
                     eq_refl eq_refl eq_refl)
              Sim.broken 1%positive _ [] [cmd_step [lit "pwd"] 2%positive] []
              eq_refl eq_refl (steps_return_nil _)).
Defined.

(** [pwd] created with an empty [cwd] and first called in [/home]: it runs
    there, and still does when the process has moved to [/srv]. *)
Lemma cmd_step_resolves_cwd_once_witness :
  let step := cmd_step [lit "pwd"] 2%positive in
  let st1 := snd (call_step step Sim.broken) in
  let moved := mkState (heap st1) (Sim.with_cwd (lit "/srv") (world st1)) in
  cells (heap Sim.broken) !! 2%positive = Some []
  ∧ os_getcwd (world Sim.broken) = Returns (lit "/home")
  ∧ lit "/home" ≠ []
  ∧ fst (call_step step Sim.broken) = Ok (mkStepExecutionResult 0 "/home" "")
  ∧ cells (heap st1) !! 2%positive = Some (lit "/home")
  ∧ os_getcwd (world moved) = Returns (lit "/srv")
  ∧ fst (call_step step moved) = Ok (mkStepExecutionResult 0 "/home" "").
Proof.
  cbv zeta.
  assert (lit "/home" ≠ []) as Hne by discriminate.
  assert (cells (heap Sim.broken) !! 2%positive = Some []) as Hc
    by (vm_compute; reflexivity).
  assert (os_getcwd (world Sim.broken) = Returns (lit "/home")) as Hcwd
    by (vm_compute; reflexivity).
  destruct (cmd_step_resolves_cwd_once [lit "pwd"] 2%positive Sim.broken
              (lit "/home") Hc Hcwd Hne)
    as (Hfirst & Hcell & Hlater & _).
  split; [exact Hc |]. split; [exact Hcwd |]. split; [exact Hne |].
  split; [rewrite Hfirst; vm_compute; reflexivity |].
  split; [exact Hcell |].
  split; [vm_compute; reflexivity |].
  match goal with |- fst (call_step _ ?moved) = _ =>
    rewrite (Hlater moved Hcell) end.
  vm_compute. reflexivity.
Defined.

(** The is-updated hook of [Sim.tool] gives statuses 0 and 7, and
    [is_updated] is false. *)
Lemma is_updated_iff_all_success_witness :
  let rs := [mkStepExecutionResult 0 "" ""; mkStepExecutionResult 7 "" ""] in
  let st' := snd (Hook_call 2%positive Sim.tool) in
  Recipe.is_updated_hook Sim.tool_recipe = Some 2%positive
  ∧ Hook_call 2%positive Sim.tool = (Ok rs, st')
  ∧ Recipe_is_updated Sim.tool_recipe Sim.tool = (Ok false, st').
Proof.
  intros rs st'.
  assert (Hook_call 2%positive Sim.tool = (Ok rs, st')) as Hcall
    by (vm_compute; reflexivity).
  destruct (is_updated_iff_all_success Sim.tool_recipe 2%positive Sim.tool rs st'
              eq_refl Hcall) as (b & Hres & _ & Hfalse).
  split; [reflexivity |]. split; [exact Hcall |].
  rewrite Hres.
  rewrite (Hfalse (mkStepExecutionResult 7 "" "")); [reflexivity | | discriminate].
  apply list_elem_of_In. right. left. reflexivity.
Defined.

(** The is-updated hook of [Sim.idle] has no steps. *)
Lemma is_updated_of_empty_hook_witness :
  Recipe.is_updated_hook Sim.idle_recipe = Some 3%positive
  ∧ hooks (heap Sim.idle) !! 3%positive = Some (Hook.mk [] (Some []))
  ∧ Hook_call 3%positive Sim.idle = (Ok [], Sim.idle)
  ∧ Recipe_is_updated Sim.idle_recipe Sim.idle = (Ok true, Sim.idle).
Proof.
  assert (hooks (heap Sim.idle) !! 3%positive = Some (Hook.mk [] (Some []))) as Hh
    by (vm_compute; reflexivity).
  split; [reflexivity |]. split; [exact Hh |].
  exact (is_updated_of_empty_hook Sim.idle_recipe 3%positive Sim.idle (Some [])
           eq_refl Hh).
Defined.

Lemma blank_builder_hooks_exist hp : hooks_exist hp Sim.blank_builder.
Proof. split; [| intros []]; intros; discriminate. Qed.

(** A Builder without hooks is refused, and accepted under [DEVM_DEBUG=1]. *)
Lemma to_recipe_HooksMissing_witness :
  builders (heap Sim.blank) !! 1%positive = Some Sim.blank_builder
  ∧ hooks_exist (heap Sim.blank) Sim.blank_builder
  ∧ (∃ msg, Builder_to_recipe 1%positive Sim.blank
            = (Raise (Exn HooksMissing msg), Sim.blank))
  ∧ (∃ r, Builder_to_recipe 1%positive Sim.blank_debug = (Ok r, Sim.blank_debug)).
Proof.
  assert (builders (heap Sim.blank) !! 1%positive = Some Sim.blank_builder) as Hb
    by (vm_compute; reflexivity).
  assert (builders (heap Sim.blank_debug) !! 1%positive = Some Sim.blank_builder)
    as Hb' by (vm_compute; reflexivity).
  split; [exact Hb |]. split; [apply blank_builder_hooks_exist |]. split.
  - apply (to_recipe_HooksMissing Sim.blank 1%positive Sim.blank_builder Hb
             (blank_builder_hooks_exist _)).
    split; [left; reflexivity | vm_compute; reflexivity].
  - apply (to_recipe_HooksMissing Sim.blank_debug 1%positive Sim.blank_builder Hb'
             (blank_builder_hooks_exist _)).
    vm_compute; reflexivity.
Defined.

(** On the Builder that [recipe] has just made, the four constructors
    raise. *)
Lemma step_constructor_without_current_hook_witness :
  let failure : outcome loc * State Sim.t :=
    (Raise (Exn CurrentHooksNotSet (lit "No hook set for blank")), Sim.blank) in
  builders (heap Sim.blank) !! 1%positive = Some Sim.blank_builder
  ∧ Builder._current_hook Sim.blank_builder = None
  ∧ Builder_download 1%positive (lit "http://host/a.zip") (lit "b.zip") Sim.blank
    = failure
  ∧ Builder_extract 1%positive (lit "a.zip") None false false false Sim.blank
    = failure
  ∧ Builder_rm 1%positive (lit "old") Sim.blank = failure
  ∧ Builder_cmd 1%positive [lit "pwd"] [] Sim.blank = failure.
Proof.
  cbv zeta.
  assert (builders (heap Sim.blank) !! 1%positive = Some Sim.blank_builder) as Hb
    by (vm_compute; reflexivity).
  destruct (step_constructor_without_current_hook Sim.blank 1%positive
              Sim.blank_builder Hb eq_refl) as (Hd & He & Hr & Hc).
  split; [exact Hb |]. split; [reflexivity |].
  split; [apply Hd |]. split; [apply He |]. split; [apply Hr | apply Hc].
Defined.

(** install, a removal, then uninstall with a removal of its own, then
    install again and a download: the install hook holds the removal and
    the download. *)
Lemma reselect_reenters_hook_witness :
  let w1 := [call_rm (lit "old")] in
  let mid := [call_select uninstall_kind []; call_rm (lit "b.zip")] in
  let w2 := [call_download (lit "http://host/a.zip") (lit "b.zip")] in
  builders (heap Sim.blank) !! 1%positive = Some Sim.blank_builder
  ∧ hooks_exist (heap Sim.blank) Sim.blank_builder
  ∧ Forall is_step_constructor w1
  ∧ Forall is_step_constructor w2
  ∧ ∃ l h ss1 ssm ss2 st3,
      chain 1%positive
        (call_select install_kind (lit "install") :: w1 ++ mid
           ++ call_select install_kind (lit "again") :: w2) Sim.blank
        = (Ok 1%positive, st3)
      ∧ h = Hook.mk [] (Some (lit "install"))
      ∧ hooks (heap st3) !! l
          = Some (Hook.mk (Hook.steps h ++ ss1 ++ ssm ++ ss2) (Hook.description h))
      ∧ Forall2 (made_by (heap st3)) w1 ss1
      ∧ Forall2 (made_by (heap st3)) w2 ss2.
Proof.
  cbv zeta.
  assert (builders (heap Sim.blank) !! 1%positive = Some Sim.blank_builder) as Hb
    by (vm_compute; reflexivity).
  assert (Forall is_step_constructor [call_rm (lit "old")]) as Hw1
    by (repeat constructor).
  assert (Forall is_step_constructor
            [call_download (lit "http://host/a.zip") (lit "b.zip")]) as Hw2
    by (repeat constructor).
  split; [exact Hb |]. split; [apply blank_builder_hooks_exist |].
  split; [exact Hw1 |]. split; [exact Hw2 |].
  destruct (reselect_reenters_hook Sim.blank 1%positive Sim.blank_builder
              install_kind (lit "install") (lit "again")
              [call_rm (lit "old")]
              [call_select uninstall_kind []; call_rm (lit "b.zip")]
              [call_download (lit "http://host/a.zip") (lit "b.zip")]
              Hb (blank_builder_hooks_exist _) Hw1 Hw2)
    as (l & h & st1 & ss1 & ssm & st2 & b2 & ss2 & st3 & _ & _ & Hnew & _ & _ & _
        & _ & _ & _ & _ & Hsteps & Hm1 & Hm2 & Hchain).
  exists l, h, ss1, ssm, ss2, st3.
  split; [exact Hchain |]. split; [exact (proj2 (Hnew eq_refl)) |].
  split; [exact Hsteps |]. split; [exact Hm1 | exact Hm2].
Defined.

(** C8 fails on the code at the description.  The Builder of [Sim.tool] was
    made with the description "a tool"; the Recipe that [to_recipe] returns
    has the name and the four hook references of the Builder, and the empty
    description. *)
Theorem to_recipe_drops_description :
  ∃ b r,
    builders (heap Sim.tool) !! 1%positive = Some b
    ∧ Builder_to_recipe 1%positive Sim.tool = (Ok r, Sim.tool)
    ∧ Builder.description b = Some (lit "a tool")
    ∧ Recipe.description r = Some []
    ∧ Recipe.description r ≠ Builder.description b
    ∧ Recipe.name r = Builder.name b
    ∧ Recipe.install_hook r = Builder.install_hook b
    ∧ Recipe.uninstall_hook r = Builder.uninstall_hook b
    ∧ Recipe.update_hook r = Builder.update_hook b
    ∧ Recipe.is_updated_hook r = Builder.is_updated_hook b.
Proof.
  eexists _, _. split; [vm_compute; reflexivity |].
  split; [vm_compute; reflexivity |].
  repeat split; try reflexivity. discriminate.
Qed.

(** * More properties of the code *)

Section Invocation_properties.
Context {World : Type} `{!Collaborators World}.

Implicit Types (st : State World) (s : Step) (rs xs : list StepExecutionResult).

(** What the call of a step may change in the heap: the value of a [cwd]
    variable, nothing else. *)
Lemma call_step_frame s st :
  hooks (heap (snd (call_step s st))) = hooks (heap st)
  ∧ builders (heap (snd (call_step s st))) = builders (heap st)
  ∧ dom (cells (heap (snd (call_step s st)))) = dom (cells (heap st)).
Proof.
  destruct s as [url path | src dest ov al ke | path | cmd c];
    unfold call_step, try_except_Exception, step_failed, encode_dest, run_process;
    unfold_M.
  - destruct (http_get_to_file url path (world st)) as [[[]|e] w]; simpl;
      [| destruct (isinstance_Exception e)]; done.
  - destruct (xtract src dest ov al ke (world st)) as [[[]|e] w]; simpl;
      [destruct dest; simpl | destruct (isinstance_Exception e)]; done.
  - destruct (shutil_rmtree path (world st)) as [[[]|e] w]; simpl;
      [| destruct (isinstance_Exception e)]; done.
  - destruct (cells (heap st) !! c) as [cw |] eqn:Hc; [| done].
    destruct (str_truthy cw).
    + by destruct (subprocess_run cmd cw (world st)) as [[p|e] w].
    + destruct (os_getcwd (world st)) as [d | e]; simpl; [| done].
      apply elem_of_dom_2 in Hc.
      destruct (subprocess_run cmd d (world st)) as [[p|e] w]; simpl;
        (split; [done |]; split; [done |]);
        rewrite dom_insert_L; by apply subseteq_union_1_L, singleton_subseteq_l.
Qed.

Lemma run_steps_frame ss : ∀ r st,
  hooks (heap (snd (run_steps ss r st))) = hooks (heap st)
  ∧ builders (heap (snd (run_steps ss r st))) = builders (heap st)
  ∧ dom (cells (heap (snd (run_steps ss r st)))) = dom (cells (heap st)).
Proof.
  induction ss as [| s ss IH]; intros r st; simpl; [done |].
  unfold mbind, M_bind.
  pose proof (call_step_frame s st) as (Hh & Hb & Hc).
  destruct (call_step s st) as [[x | e |] st1]; simpl in *; [| done | done].
  destruct (IH (r ++ [x]) st1) as (Hh' & Hb' & Hc').
  split; [congruence |]. split; congruence.
Qed.

(** X11.  Whatever the outcome, the call of a Hook leaves every Hook and
    every Builder as it was, and no [cwd] variable appears or disappears:
    a Hook can be called again and runs the same steps. *)
Theorem Hook_call_keeps_hooks_and_builders self st :
  hooks (heap (snd (Hook_call self st))) = hooks (heap st)
  ∧ builders (heap (snd (Hook_call self st))) = builders (heap st)
  ∧ dom (cells (heap (snd (Hook_call self st)))) = dom (cells (heap st)).
Proof.
  unfold Hook_call. unfold_M.
  destruct (hooks (heap st) !! self) as [h |]; [| done].
  apply run_steps_frame.
Qed.

Lemma run_steps_acc ss : ∀ r st,
  run_steps ss r st = (xs ← run_steps ss []; mret (r ++ xs)) st.
Proof.
  induction ss as [| s ss IH]; intros r st; simpl.
  - unfold_M. by rewrite app_nil_r.
  - unfold mbind, M_bind in *.
    destruct (call_step s st) as [[x | e |] st1]; [| done | done].
    rewrite (IH (r ++ [x])), (IH ([] ++ [x])).
    destruct (run_steps ss [] st1) as [[xs | e |] st2]; [| done | done].
    unfold mret, M_ret. by rewrite <- app_assoc.
Qed.

Lemma run_steps_app ss1 ss2 : ∀ r st,
  run_steps (ss1 ++ ss2) r st = (x ← run_steps ss1 r; run_steps ss2 x) st.
Proof.
  induction ss1 as [| s ss1 IH]; intros r st; simpl; [done |].
  unfold mbind, M_bind in *.
  destruct (call_step s st) as [[x | e |] st1]; [| done | done].
  apply IH.
Qed.

(** X13.  A Hook whose steps are those of a Hook [la] followed by those of a
    Hook [lb] does what calling [la] and then [lb] does: the same effects,
    the results of [la] followed by those of [lb], and the same exception
    at the same point if a step raises. *)
Theorem Hook_call_concat st la lb l ha hb h :
  hooks (heap st) !! la = Some ha →
  hooks (heap st) !! lb = Some hb →
  hooks (heap st) !! l = Some h →
  Hook.steps h = Hook.steps ha ++ Hook.steps hb →
  Hook_call l st = (ra ← Hook_call la; rb ← Hook_call lb; mret (ra ++ rb)) st.
Proof.
  intros Ha Hb Hl Hsteps.
  rewrite (Hook_call_unfold _ _ _ Hl), Hsteps, run_steps_app.
  unfold mbind, M_bind.
  rewrite (Hook_call_unfold _ _ _ Ha).
  pose proof (run_steps_frame (Hook.steps ha) [] st) as (Hh & _ & _).
  destruct (run_steps (Hook.steps ha) [] st) as [[ra | e |] st1];
    simpl in Hh; [| done | done].
  rewrite <- Hh in Hb.
  rewrite run_steps_acc. unfold mbind, M_bind.
  by rewrite (Hook_call_unfold _ _ _ Hb).
Qed.


End Invocation_properties.

Section Recipe_edge_properties.
Context {World : Type} `{!Collaborators World}.

Implicit Types (st : State World) (r : Recipe.t) (b : Builder.t).

(** X1.  On a Recipe whose hook is absent, install, update and uninstall
    print their notice and then raise [TypeError]; [is_updated] raises it at
    once.  And when the notice cannot be printed, the exception of [print]
    leaves the operation.  In all these cases no step is run and the heap is
    as it was. *)
Theorem Recipe_operation_without_hook r st :
  let not_callable := Exn TypeError (lit "'NoneType' object is not callable") in
  let after_notice (notice : pystr) (field : option loc)
        (operation : outcome (list StepExecutionResult) * State World) :=
    ∀ res w', print (notice ++ Recipe.name r) (world st) = (res, w') →
      match res with
      | Raises e => operation = (Raise e, mkState (heap st) w')
      | Returns _ => field = None →
                     operation = (Raise not_callable, mkState (heap st) w')
      end in
  after_notice (lit "[*] Installing ") (Recipe.install_hook r) (Recipe_install r st)
  ∧ after_notice (lit "[*] Updating ") (Recipe.update_hook r) (Recipe_update r st)
  ∧ after_notice (lit "[*] Uninstalling ") (Recipe.uninstall_hook r)
      (Recipe_uninstall r st)
  ∧ (Recipe.is_updated_hook r = None →
       Recipe_is_updated r st = (Raise not_callable, st)).
Proof.
  cbv zeta.
  repeat split;
    unfold Recipe_install, Recipe_update, Recipe_uninstall, Recipe_is_updated,
      call_hook_field; unfold_M.
  1-3: intros res w' ->; destruct res as [[] | e]; [intros -> |]; done.
  by intros ->.
Qed.

(** X2.  The override lets [to_recipe] make a Recipe from a Builder without
    install hook; [install] on that Recipe prints its notice and raises
    [TypeError]. *)
Theorem debug_recipe_cannot_install st self b w' :
  builders (heap st) !! self = Some b →
  hooks_exist (heap st) b →
  Builder.install_hook b = None →
  DEVM_DEBUG (world st) = true →
  print (lit "[*] Installing " ++ Builder.name b) (world st) = (Returns (), w') →
  ∃ r, Builder_to_recipe self st = (Ok r, st)
       ∧ Recipe_install r st =
           (Raise (Exn TypeError (lit "'NoneType' object is not callable")),
            mkState (heap st) w').
Proof.
  intros Hb Hex Hi Hdebug Hprint.
  destruct (to_recipe_unfold _ _ _ Hb Hex) as [msg Hto].
  rewrite Hdebug, andb_false_r in Hto.
  eexists. split; [exact Hto |].
  unfold Recipe_install, call_hook_field. unfold_M.
  cbn [Recipe.name Recipe.install_hook]. by rewrite Hprint, Hi.
Qed.


End Recipe_edge_properties.

Section Step_edge_properties.
Context {World : Type} `{!Collaborators World}.

Implicit Types (st : State World).

(** X4.  When [os.getcwd()] raises in a command step created with an empty
    [cwd], the exception leaves the step, caught by nothing even when it is
    under [Exception]; no process is launched, the [cwd] of the step stays
    empty, and the call of a Hook that reached the step raises. *)
Theorem cmd_step_getcwd_failure cmd c st e :
  cells (heap st) !! c = Some [] →
  os_getcwd (world st) = Raises e →
  call_step (cmd_step cmd c) st = (Raise e, st)
  ∧ ∀ st0 self h before after rs,
      hooks (heap st0) !! self = Some h →
      Hook.steps h = before ++ cmd_step cmd c :: after →
      steps_return before st0 rs st →
      Hook_call self st0 = (Raise e, st).
Proof.
  intros Hc Hcwd.
  assert (call_step (cmd_step cmd c) st = (Raise e, st)) as Hstep.
  { rewrite (cmd_step_unfold _ _ _ _ Hc). simpl. by rewrite Hcwd. }
  split; [done |].
  intros st0 self h before after rs Hh Hsteps Hbefore.
  rewrite (Hook_call_unfold _ _ _ Hh), Hsteps.
  by eapply run_steps_Raise.
Qed.

End Step_edge_properties.

Section Builder_edge_properties.
Context {World : Type} `{!Collaborators World}.

Implicit Types (st : State World) (b : Builder.t) (self l : loc) (hp : Heap).

(** X5.  On a Builder with a current hook, each of download, extract, rm
    and cmd returns the Builder and appends the one step it makes at the end
    of the current hook.  Nothing is run: the world is untouched.  No other
    Hook, no Builder and no [cwd] variable that existed changes. *)
Theorem step_constructor_appends_one_step st self b l h c :
  builders (heap st) !! self = Some b →
  Builder._current_hook b = Some l →
  hooks (heap st) !! l = Some h →
  is_step_constructor c →
  ∃ s st',
    run_method self c st = (Ok self, st')
    ∧ made_by (heap st') c s
    ∧ hooks (heap st') !! l
        = Some (Hook.mk (Hook.steps h ++ [s]) (Hook.description h))
    ∧ (∀ l', l' ≠ l → hooks (heap st') !! l' = hooks (heap st) !! l')
    ∧ builders (heap st') = builders (heap st)
    ∧ (∀ c' v, cells (heap st) !! c' = Some v → cells (heap st') !! c' = Some v)
    ∧ world st' = world st.
Proof.
  intros Hb Hcur Hh Hc.
  destruct (constructor_appends _ _ _ _ _ c Hb Hcur Hh Hc)
    as (s & st' & Hrun & Hhooks & Hbs & Hcells & Hw & Hmade).
  exists s, st'. split; [done |]. split; [done |].
  split; [rewrite Hhooks; apply lookup_insert_eq |].
  split; [intros l' Hne; rewrite Hhooks; by apply lookup_insert_ne |].
  split; [done |]. split; [| done].
  intros c' v Hv. by eapply lookup_weaken.
Qed.

Lemma set_current_hook_twice o b :
  Builder.set_current_hook o (Builder.set_current_hook o b)
  = Builder.set_current_hook o b.
Proof. done. Qed.

(** X6.  Calling the selection method of a kind twice in a row leaves the
    same state as calling it once: the second call creates nothing, and the
    description it is given is dropped. *)
Theorem select_twice_is_select_once st self b k d1 d2 :
  builders (heap st) !! self = Some b →
  (x ← Builder_select k self d1; Builder_select k x d2) st
  = Builder_select k self d1 st.
Proof.
  intros Hb. unfold mbind at 1. unfold M_bind at 1.
  destruct (Builder.slot k b) as [l |] eqn:Hk.
  - rewrite (select_existing _ _ _ k d1 l Hb Hk).
    erewrite select_existing;
      [| apply lookup_insert_eq | by rewrite slot_set_current_hook].
    unfold set_builders. simpl. by rewrite insert_insert_eq.
  - rewrite (select_new _ _ _ k d1 Hb Hk).
    erewrite select_existing; [| apply lookup_insert_eq |].
    + unfold set_builders. simpl. by rewrite insert_insert_eq.
    + rewrite slot_set_current_hook, slot_set_slot. by rewrite decide_True.
Qed.

(** X7.  Two kinds that a Builder has no Hook for get two Hooks.  After the
    selection of the first kind and a window of step constructors, then the
    selection of the second kind and a window, the Hook of the first kind
    holds the steps of the first window and nothing else, and the Hook of
    the second kind those of the second window. *)
Theorem kinds_have_hooks_of_their_own st self b k1 k2 d1 d2 w1 w2 :
  builders (heap st) !! self = Some b →
  k1 ≠ k2 →
  Builder.slot k1 b = None →
  Builder.slot k2 b = None →
  Forall is_step_constructor w1 →
  Forall is_step_constructor w2 →
  ∃ l1 l2 ss1 ss2 st' b',
    chain self (call_select k1 d1 :: w1 ++ call_select k2 d2 :: w2) st
      = (Ok self, st')
    ∧ l1 ≠ l2
    ∧ builders (heap st') !! self = Some b'
    ∧ Builder.slot k1 b' = Some l1
    ∧ Builder.slot k2 b' = Some l2
    ∧ hooks (heap st') !! l1 = Some (Hook.mk ss1 (Some d1))
    ∧ hooks (heap st') !! l2 = Some (Hook.mk ss2 (Some d2))
    ∧ Forall2 (made_by (heap st')) w1 ss1
    ∧ Forall2 (made_by (heap st')) w2 ss2.
Proof.
  intros Hb Hne Hk1 Hk2 Hw1 Hw2.
  (* the first selection and its window *)
  pose proof (select_new _ _ _ k1 d1 Hb Hk1) as Hsel1. cbv zeta in Hsel1.
  set (l1 := fresh (dom (hooks (heap st)))) in *.
  set (b1 := Builder.set_current_hook (Some l1) (Builder.set_slot k1 (Some l1) b)) in *.
  match type of Hsel1 with _ = (_, ?s) => set (st1 := s) in * end.
  assert (builders (heap st1) !! self = Some b1) as Hb1 by apply lookup_insert_eq.
  assert (hooks (heap st1) !! l1 = Some (Hook.mk [] (Some d1))) as Hl1
    by apply lookup_insert_eq.
  destruct (chain_window w1 st1 self b1 l1 _ Hb1 eq_refl Hl1 Hw1)
    as (ss1 & st2 & Hch1 & Hhooks2 & Hbs2 & Hcells2 & _ & Hmade1).
  simpl in Hhooks2.
  (* the second selection and its window *)
  assert (builders (heap st2) !! self = Some b1) as Hb2 by by rewrite Hbs2.
  assert (Builder.slot k2 b1 = None) as Hk2'.
  { unfold b1. rewrite slot_set_current_hook, slot_set_slot.
    by rewrite decide_False. }
  pose proof (select_new _ _ _ k2 d2 Hb2 Hk2') as Hsel2. cbv zeta in Hsel2.
  set (l2 := fresh (dom (hooks (heap st2)))) in *.
  set (b2 := Builder.set_current_hook (Some l2) (Builder.set_slot k2 (Some l2) b1)) in *.
  match type of Hsel2 with _ = (_, ?s) => set (st3 := s) in * end.
  assert (l1 ≠ l2) as Hl12.
  { intros Heq. pose proof (fresh_hook_None (heap st2)) as Hfresh.
    fold l2 in Hfresh. rewrite <- Heq, Hhooks2, lookup_insert_eq in Hfresh. done. }
  assert (builders (heap st3) !! self = Some b2) as Hb3 by apply lookup_insert_eq.
  assert (hooks (heap st3) !! l2 = Some (Hook.mk [] (Some d2))) as Hl2
    by apply lookup_insert_eq.
  destruct (chain_window w2 st3 self b2 l2 _ Hb3 eq_refl Hl2 Hw2)
    as (ss2 & st4 & Hch2 & Hhooks4 & Hbs4 & Hcells4 & _ & Hmade2).
  simpl in Hhooks4.
  exists l1, l2, ss1, ss2, st4, b2.
  split.
  { cbn [chain run_method]. unfold mbind at 1. unfold M_bind at 1.
    rewrite Hsel1, chain_app. unfold mbind at 1. unfold M_bind at 1.
    rewrite Hch1. cbn [chain run_method]. unfold mbind at 1. unfold M_bind at 1.
    by rewrite Hsel2. }
  split; [done |]. split; [by rewrite Hbs4 |].
  split.
  { unfold b2, b1. rewrite slot_set_current_hook, slot_set_slot.
    rewrite decide_False by done.
    rewrite slot_set_current_hook, slot_set_slot. by rewrite decide_True. }
  split.
  { unfold b2. rewrite slot_set_current_hook, slot_set_slot. by rewrite decide_True. }
  split.
  { rewrite Hhooks4, lookup_insert_ne by done. simpl.
    rewrite lookup_insert_ne by done. rewrite Hhooks2. apply lookup_insert_eq. }
  split; [rewrite Hhooks4; apply lookup_insert_eq |].
  split; [| done].
  eapply Forall2_impl; [done |]. intros c s. apply made_by_mono.
  etrans; [| done]. done.
Qed.

(** X8.  [DEVM_DEBUG] set to the empty string is no override: a Builder
    without one of the required hooks is refused as if the variable were
    not set. *)
Theorem empty_DEVM_DEBUG_is_no_override st self b :
  builders (heap st) !! self = Some b →
  hooks_exist (heap st) b →
  Builder.install_hook b = None ∨ Builder.uninstall_hook b = None →
  os_environ_get (lit "DEVM_DEBUG") (world st) = Some [] →
  ∃ msg, Builder_to_recipe self st = (Raise (Exn HooksMissing msg), st).
Proof.
  intros Hb Hex Hmissing Henv.
  destruct (to_recipe_unfold _ _ _ Hb Hex) as [msg ->].
  unfold DEVM_DEBUG. rewrite Henv. simpl.
  exists msg. by destruct Hmissing as [-> | ->]; simpl; rewrite ?andb_false_r.
Qed.

Lemma constructor_fails st self b c :
  builders (heap st) !! self = Some b →
  Builder._current_hook b = None →
  is_step_constructor c →
  run_method self c st =
    (Raise (Exn CurrentHooksNotSet (lit "No hook set for " ++ Builder.name b)), st).
Proof.
  intros Hb Hcur Hc.
  pose proof (check_current_hook_None _ _ _ Hb Hcur) as Hcheck.
  destruct c; simpl in Hc; [done | | | |]; simpl;
    unfold Builder_download, Builder_extract, Builder_rm, Builder_cmd;
    unfold mbind at 1; unfold M_bind at 1; by rewrite Hcheck.
Qed.

(** X9.  The errors of the Builder are not under [Exception]
    ([BuilderException] derives from [BaseException]): [to_recipe] and the
    step constructors behave the same inside [try ... except Exception],
    whose handler never sees [HooksMissing] or [CurrentHooksNotSet]. *)
Theorem builder_errors_pass_except_Exception st self b :
  builders (heap st) !! self = Some b →
  hooks_exist (heap st) b →
  (∀ handler,
     try_except_Exception (Builder_to_recipe self) handler st
     = Builder_to_recipe self st)
  ∧ (Builder._current_hook b = None →
     ∀ c handler, is_step_constructor c →
       try_except_Exception (run_method self c) handler st
       = run_method self c st).
Proof.
  intros Hb Hex. split.
  - intros handler. unfold try_except_Exception.
    destruct (to_recipe_unfold _ _ _ Hb Hex) as [msg ->].
    by destruct (negb _ && negb _).
  - intros Hcur c handler Hc. unfold try_except_Exception.
    by rewrite (constructor_fails _ _ _ c Hb Hcur Hc).
Qed.

End Builder_edge_properties.

Section New_builder_properties.
Context {World : Type} `{!Collaborators World}.

Implicit Types (st : State World) (b : Builder.t) (self l : loc) (hp : Heap).

Lemma run_method_built_apart hp0 self c st o st' :
  built_apart hp0 self (heap st) →
  run_method self c st = (o, st') →
  built_apart hp0 self (heap st')
  ∧ world st' = world st
  ∧ (∀ x, o = Ok x → x = self).
Proof.
  intros (b & Hb & Hself & Hcur & Hslots & Hhooks & Hcells & Hbs) Hrun.
  assert (is_step_constructor c ∨ ∃ k d, c = call_select k d)
    as [Hc | (k & d & ->)] by (destruct c; simpl; eauto).
  - destruct (Builder._current_hook b) as [l |] eqn:Hl.
    + destruct (Hcur l eq_refl) as [Hl0 [h Hh]].
      destruct (constructor_appends _ _ _ _ _ c Hb Hl Hh Hc)
        as (s & st1 & Hrun1 & Hhooks1 & Hbs1 & Hcells1 & Hw1 & _).
      rewrite Hrun1 in Hrun. injection Hrun as <- <-.
      assert (∀ l', is_Some (hooks (heap st) !! l') →
                is_Some (hooks (heap st1) !! l')) as Hkeep.
      { intros l' Hl'. rewrite Hhooks1, lookup_insert. by case_decide. }
      split; [| split; [done | intros x ?; congruence]].
      exists b. rewrite Hbs1. split; [done |]. split; [done |].
      split. { intros l' Hl'. rewrite Hl in Hl'. injection Hl' as <-.
               split; [done |]. apply Hkeep. eauto. }
      split. { intros k l' Hk. destruct (Hslots k l' Hk). split; [done |].
               by apply Hkeep. }
      split; [rewrite Hhooks1; by apply insert_subseteq_r |].
      split; [by etrans | done].
    + rewrite (constructor_fails _ _ _ c Hb Hl Hc) in Hrun.
      injection Hrun as <- <-.
      split; [| split; [done | intros x ?; congruence]].
      exists b. split; [done |]. split; [done |].
      split; [intros l' Hl'; congruence | done].
  - simpl in Hrun. destruct (Builder.slot k b) as [l |] eqn:Hk.
    + rewrite (select_existing _ _ _ k d l Hb Hk) in Hrun.
      injection Hrun as <- <-. simpl.
      split; [| split; [done | intros x ?; congruence]].
      eexists. split; [apply lookup_insert_eq |]. split; [done |].
      split. { simpl. intros l' [= <-]. eauto. }
      split. { intros k' l'. rewrite slot_set_current_hook. eauto. }
      split; [done |]. split; [done |]. by apply insert_subseteq_r.
    + rewrite (select_new _ _ _ k d Hb Hk) in Hrun.
      injection Hrun as <- <-. simpl.
      pose proof (fresh_hook_None (heap st)) as Hfresh.
      assert (hooks hp0 !! fresh (dom (hooks (heap st))) = None) as Hfresh0
        by by eapply lookup_weaken_None.
      split; [| split; [done | intros x ?; congruence]].
      eexists. split; [apply lookup_insert_eq |]. split; [done |].
      split. { simpl. intros l' [= <-]. split; [done |]. eexists. apply lookup_insert_eq. }
      split.
      { intros k' l'. rewrite slot_set_current_hook, slot_set_slot.
        case_decide.
        - intros [= <-]. split; [done |]. eexists. apply lookup_insert_eq.
        - intros Hk'. destruct (Hslots k' l' Hk') as [H0 H1]. split; [done |].
          destruct H1 as [h' Hh'].
          destruct (decide (fresh (dom (hooks (heap st))) = l')) as [<- | Hne'].
          * eexists. apply lookup_insert_eq.
          * exists h'. rewrite <- Hh'. by apply lookup_insert_ne. }
      split; [by apply insert_subseteq_r |].
      split; [done |]. by apply insert_subseteq_r.
Qed.

Lemma chain_built_apart hp0 cs : ∀ self st o st',
  built_apart hp0 self (heap st) →
  chain self cs st = (o, st') →
  built_apart hp0 self (heap st') ∧ world st' = world st.
Proof.
  induction cs as [| c cs IH]; intros self st o st' Hinv; simpl.
  - unfold_M. by intros [= <- <-].
  - unfold mbind, M_bind.
    destruct (run_method self c st) as [[x | e |] st1] eqn:Hrun;
      destruct (run_method_built_apart _ _ _ _ _ _ Hinv Hrun) as (Hinv1 & Hw1 & Hx).
    + rewrite (Hx x eq_refl). intros Hchain.
      destruct (IH _ _ _ _ Hinv1 Hchain) as [Hinv2 Hw2].
      split; [done | congruence].
    + by intros [= <- <-].
    + by intros [= <- <-].
Qed.

(** X10.  Building a recipe disturbs nothing that was there.  Whatever calls
    are chained on the Builder that [recipe] returns, and whether the chain
    ends or raises, every Hook, Builder and [cwd] variable that existed
    before [recipe] was called is afterwards as it was, and the world is
    untouched. *)
Theorem new_builder_leaves_the_rest name description cs st self st1 o st2 :
  recipe name description st = (Ok self, st1) →
  chain self cs st1 = (o, st2) →
  hooks (heap st) ⊆ hooks (heap st2)
  ∧ builders (heap st) ⊆ builders (heap st2)
  ∧ cells (heap st) ⊆ cells (heap st2)
  ∧ world st2 = world st.
Proof.
  intros Hrecipe Hchain. unfold recipe, new_builder in Hrecipe.
  injection Hrecipe as <- <-.
  assert (builders (heap st) !! fresh (dom (builders (heap st))) = None) as Hfresh
    by apply not_elem_of_dom, is_fresh.
  match type of Hchain with chain ?self _ ?st1 = _ =>
    assert (built_apart (heap st) self (heap st1)) as Hinv end.
  { eexists. split; [apply lookup_insert_eq |]. split; [exact Hfresh |].
    split; [intros ? [=] |]. split; [intros [] ? [=] |].
    split; [done |]. split; [done |]. by apply insert_subseteq. }
  destruct (chain_built_apart _ _ _ _ _ _ Hinv Hchain)
    as [(b & _ & _ & _ & _ & Hhooks & Hcells & Hbs) Hw].
  by repeat split.
Qed.

End New_builder_properties.

(** * The further properties at work in the small world *)

Lemma Recipe_operation_without_hook_witness :
  let not_callable := Exn TypeError (lit "'NoneType' object is not callable") in
  Recipe_update Runs.blank_recipe Sim.blank
    = (Raise not_callable,
       mkState (heap Sim.blank)
         (Sim.logged (Sim.ev_print (lit "[*] Updating blank")) (world Sim.blank)))
  ∧ Recipe_is_updated Runs.blank_recipe Sim.blank = (Raise not_callable, Sim.blank).
Proof.
  cbv zeta.
  destruct (Recipe_operation_without_hook Runs.blank_recipe Sim.blank)
    as (_ & Hupdate & _ & Hcheck).
  split.
  - exact (Hupdate (Returns ()) _ eq_refl eq_refl).
  - exact (Hcheck eq_refl).
Defined.

Lemma debug_recipe_cannot_install_witness :
  let w' := Sim.logged (Sim.ev_print (lit "[*] Installing blank"))
              (world Sim.blank_debug) in
  builders (heap Sim.blank_debug) !! 1%positive = Some Sim.blank_builder
  ∧ hooks_exist (heap Sim.blank_debug) Sim.blank_builder
  ∧ Builder.install_hook Sim.blank_builder = None
  ∧ DEVM_DEBUG (world Sim.blank_debug) = true
  ∧ print (lit "[*] Installing " ++ Builder.name Sim.blank_builder)
      (world Sim.blank_debug) = (Returns (), w')
  ∧ ∃ r, Builder_to_recipe 1%positive Sim.blank_debug = (Ok r, Sim.blank_debug)
         ∧ Recipe_install r Sim.blank_debug
           = (Raise (Exn TypeError (lit "'NoneType' object is not callable")),
              mkState (heap Sim.blank_debug) w').
Proof.
  cbv zeta.
  assert (builders (heap Sim.blank_debug) !! 1%positive = Some Sim.blank_builder)
    as Hb by (vm_compute; reflexivity).
  assert (DEVM_DEBUG (world Sim.blank_debug) = true) as Hdebug
    by (vm_compute; reflexivity).
  split; [exact Hb |]. split; [apply blank_builder_hooks_exist |].
  split; [reflexivity |]. split; [exact Hdebug |]. split; [reflexivity |].
  exact (debug_recipe_cannot_install Sim.blank_debug 1%positive Sim.blank_builder _
           Hb (blank_builder_hooks_exist _) eq_refl Hdebug eq_refl).
Defined.


Lemma cmd_step_getcwd_failure_witness :
  let e := Sim.FileNotFoundError [] in
  cells (heap Unlinked.st) !! 1%positive = Some []
  ∧ os_getcwd (world Unlinked.st) = Raises e
  ∧ call_step (cmd_step [lit "pwd"] 1%positive) Unlinked.st = (Raise e, Unlinked.st)
  ∧ Hook_call 1%positive Unlinked.st = (Raise e, Unlinked.st).
Proof.
  cbv zeta.
  assert (cells (heap Unlinked.st) !! 1%positive = Some []) as Hc
    by (vm_compute; reflexivity).
  assert (os_getcwd (world Unlinked.st) = Raises (Sim.FileNotFoundError []))
    as Hcwd by (vm_compute; reflexivity).
  destruct (cmd_step_getcwd_failure [lit "pwd"] 1%positive Unlinked.st
              (Sim.FileNotFoundError []) Hc Hcwd) as [Hstep Hhook].
  split; [exact Hc |]. split; [exact Hcwd |]. split; [exact Hstep |].
  refine (Hhook Unlinked.st 1%positive
            (Hook.mk [cmd_step [lit "pwd"] 1%positive] (Some [])) [] [] [] _ eq_refl
            (steps_return_nil _)).
  vm_compute; reflexivity.
Defined.

Lemma step_constructor_appends_one_step_witness :
  let h := Hook.mk [download_step (lit "http://host/a.zip") (lit "b.zip")]
             (Some []) in
  let c := call_cmd [lit "pwd"] [] in
  builders (heap Runs.ready) !! 1%positive = Some Runs.ready_builder
  ∧ Builder._current_hook Runs.ready_builder = Some 2%positive
  ∧ hooks (heap Runs.ready) !! 2%positive = Some h
  ∧ is_step_constructor c
  ∧ ∃ s st',
      run_method 1%positive c Runs.ready = (Ok 1%positive, st')
      ∧ made_by (heap st') c s
      ∧ hooks (heap st') !! 2%positive
          = Some (Hook.mk (Hook.steps h ++ [s]) (Hook.description h))
      ∧ (∀ l', l' ≠ 2%positive →
           hooks (heap st') !! l' = hooks (heap Runs.ready) !! l')
      ∧ builders (heap st') = builders (heap Runs.ready)
      ∧ (∀ c' v, cells (heap Runs.ready) !! c' = Some v →
           cells (heap st') !! c' = Some v)
      ∧ world st' = world Runs.ready.
Proof.
  cbv zeta.
  assert (builders (heap Runs.ready) !! 1%positive = Some Runs.ready_builder)
    as Hb by (vm_compute; reflexivity).
  assert (hooks (heap Runs.ready) !! 2%positive
          = Some (Hook.mk [download_step (lit "http://host/a.zip") (lit "b.zip")]
                    (Some []))) as Hh by (vm_compute; reflexivity).
  split; [exact Hb |]. split; [reflexivity |]. split; [exact Hh |].
  split; [exact I |].
  exact (step_constructor_appends_one_step Runs.ready 1%positive Runs.ready_builder
           2%positive _ (call_cmd [lit "pwd"] []) Hb eq_refl Hh I).
Defined.

Lemma select_twice_is_select_once_witness :
  builders (heap Sim.blank) !! 1%positive = Some Sim.blank_builder
  ∧ (x ← Builder_select install_kind 1%positive (lit "first");
     Builder_select install_kind x (lit "second")) Sim.blank
    = Builder_select install_kind 1%positive (lit "first") Sim.blank.
Proof.
  assert (builders (heap Sim.blank) !! 1%positive = Some Sim.blank_builder) as Hb
    by (vm_compute; reflexivity).
  split; [exact Hb |].
  exact (select_twice_is_select_once Sim.blank 1%positive Sim.blank_builder
           install_kind (lit "first") (lit "second") Hb).
Defined.

Lemma blank_builder_lookup :
  builders (heap Sim.blank) !! 1%positive = Some Sim.blank_builder.
Proof. vm_compute; reflexivity. Qed.

Lemma kinds_have_hooks_of_their_own_witness :
  let w1 := [call_rm (lit "old")] in
  let w2 := [call_download (lit "http://host/a.zip") (lit "b.zip")] in
  builders (heap Sim.blank) !! 1%positive = Some Sim.blank_builder
  ∧ install_kind ≠ uninstall_kind
  ∧ Builder.slot install_kind Sim.blank_builder = None
  ∧ Builder.slot uninstall_kind Sim.blank_builder = None
  ∧ Forall is_step_constructor w1
  ∧ Forall is_step_constructor w2
  ∧ ∃ l1 l2 ss1 ss2 st' b',
      chain 1%positive
        (call_select install_kind (lit "in") :: w1
           ++ call_select uninstall_kind (lit "out") :: w2) Sim.blank
        = (Ok 1%positive, st')
      ∧ l1 ≠ l2
      ∧ builders (heap st') !! 1%positive = Some b'
      ∧ Builder.slot install_kind b' = Some l1
      ∧ Builder.slot uninstall_kind b' = Some l2
      ∧ hooks (heap st') !! l1 = Some (Hook.mk ss1 (Some (lit "in")))
      ∧ hooks (heap st') !! l2 = Some (Hook.mk ss2 (Some (lit "out")))
      ∧ Forall2 (made_by (heap st')) w1 ss1
      ∧ Forall2 (made_by (heap st')) w2 ss2.
Proof.
  cbv zeta.
  assert (install_kind ≠ uninstall_kind) as Hne by discriminate.
  assert (Forall is_step_constructor [call_rm (lit "old")]) as Hw1
    by (repeat constructor).
  assert (Forall is_step_constructor
            [call_download (lit "http://host/a.zip") (lit "b.zip")]) as Hw2
    by (repeat constructor).
  split; [exact blank_builder_lookup |]. split; [exact Hne |].
  split; [reflexivity |]. split; [reflexivity |].
  split; [exact Hw1 |]. split; [exact Hw2 |].
  exact (kinds_have_hooks_of_their_own Sim.blank 1%positive Sim.blank_builder
           install_kind uninstall_kind (lit "in") (lit "out") _ _
           blank_builder_lookup Hne eq_refl eq_refl Hw1 Hw2).
Defined.

Lemma empty_DEVM_DEBUG_is_no_override_witness :
  builders (heap Runs.blank_empty_debug) !! 1%positive = Some Sim.blank_builder
  ∧ hooks_exist (heap Runs.blank_empty_debug) Sim.blank_builder
  ∧ (Builder.install_hook Sim.blank_builder = None
     ∨ Builder.uninstall_hook Sim.blank_builder = None)
  ∧ os_environ_get (lit "DEVM_DEBUG") (world Runs.blank_empty_debug) = Some []
  ∧ ∃ msg, Builder_to_recipe 1%positive Runs.blank_empty_debug
           = (Raise (Exn HooksMissing msg), Runs.blank_empty_debug).
Proof.
  assert (builders (heap Runs.blank_empty_debug) !! 1%positive
          = Some Sim.blank_builder) as Hb by (vm_compute; reflexivity).
  assert (os_environ_get (lit "DEVM_DEBUG") (world Runs.blank_empty_debug)
          = Some []) as Henv by (vm_compute; reflexivity).
  split; [exact Hb |]. split; [apply blank_builder_hooks_exist |].
  split; [left; reflexivity |]. split; [exact Henv |].
  exact (empty_DEVM_DEBUG_is_no_override Runs.blank_empty_debug 1%positive
           Sim.blank_builder Hb (blank_builder_hooks_exist _)
           (or_introl eq_refl) Henv).
Defined.

Lemma builder_errors_pass_except_Exception_witness :
  builders (heap Sim.blank) !! 1%positive = Some Sim.blank_builder
  ∧ hooks_exist (heap Sim.blank) Sim.blank_builder
  ∧ (∀ handler,
       try_except_Exception (Builder_to_recipe 1%positive) handler Sim.blank
       = Builder_to_recipe 1%positive Sim.blank)
  ∧ (∀ handler,
       try_except_Exception (run_method 1%positive (call_rm (lit "old")))
         handler Sim.blank
       = run_method 1%positive (call_rm (lit "old")) Sim.blank).
Proof.
  destruct (builder_errors_pass_except_Exception Sim.blank 1%positive
              Sim.blank_builder blank_builder_lookup (blank_builder_hooks_exist _))
    as [Hto Hctor].
  split; [exact blank_builder_lookup |]. split; [apply blank_builder_hooks_exist |].
  split; [exact Hto |].
  intros handler. exact (Hctor eq_refl (call_rm (lit "old")) handler I).
Defined.

Lemma new_builder_leaves_the_rest_witness :
  let cs := [call_rm (lit "old"); call_select update_kind [];
             call_cmd [lit "pwd"] []] in
  let made := recipe (lit "other") [] Sim.tool in
  let done := chain (fresh (dom (builders (heap Sim.tool)))) cs (snd made) in
  made = (Ok (fresh (dom (builders (heap Sim.tool)))), snd made)
  ∧ done = (fst done, snd done)
  ∧ hooks (heap Sim.tool) ⊆ hooks (heap (snd done))
  ∧ builders (heap Sim.tool) ⊆ builders (heap (snd done))
  ∧ cells (heap Sim.tool) ⊆ cells (heap (snd done))
  ∧ world (snd done) = world Sim.tool.
Proof.
  cbv zeta.
  split; [reflexivity |]. split; [apply surjective_pairing |].
  exact (new_builder_leaves_the_rest (lit "other") []
           [call_rm (lit "old"); call_select update_kind []; call_cmd [lit "pwd"] []]
           Sim.tool _ _ _ _ eq_refl (surjective_pairing _)).
Defined.



Lemma Hook_call_concat_witness :
  hooks (heap Runs.split) !! 1%positive = Some (Hook.mk [rm_step (lit "old")] (Some []))
  ∧ hooks (heap Runs.split) !! 2%positive
    = Some (Hook.mk [rm_step (lit "a.zip")] (Some []))
  ∧ hooks (heap Runs.split) !! 3%positive
    = Some (Hook.mk [rm_step (lit "old"); rm_step (lit "a.zip")] (Some []))
  ∧ Hook_call 3%positive Runs.split
    = (ra ← Hook_call 1%positive; rb ← Hook_call 2%positive; mret (ra ++ rb))
        Runs.split.
Proof.
  assert (hooks (heap Runs.split) !! 1%positive
          = Some (Hook.mk [rm_step (lit "old")] (Some []))) as H1
    by (vm_compute; reflexivity).
  assert (hooks (heap Runs.split) !! 2%positive
          = Some (Hook.mk [rm_step (lit "a.zip")] (Some []))) as H2
    by (vm_compute; reflexivity).
  assert (hooks (heap Runs.split) !! 3%positive
          = Some (Hook.mk [rm_step (lit "old"); rm_step (lit "a.zip")] (Some [])))
    as H3 by (vm_compute; reflexivity).
  split; [exact H1 |]. split; [exact H2 |]. split; [exact H3 |].
  exact (Hook_call_concat Runs.split 1%positive 2%positive 3%positive _ _ _
           H1 H2 H3 eq_refl).
Defined.

Section Further_edge_properties.
Context {World : Type} `{!Collaborators World}.

Implicit Types (st : State World) (b : Builder.t) (r : Recipe.t).

(** X14.  An extract step created without [dest] (the default of
    [Builder.extract]) never reports success: whenever its call returns, the
    status is [EX_SOFTWARE] and stdout is empty, also when the extraction
    itself went through. *)
Theorem extract_step_without_dest_never_succeeds src ov al ke st x st' :
  call_step (extract_step src None ov al ke) st = (Ok x, st') →
  return_code x = EX_SOFTWARE ∧ stdout x = "".
Proof.
  unfold call_step, try_except_Exception, step_failed, encode_dest. unfold_M.
  destruct (xtract src None ov al ke (world st)) as [[[] | e] w]; simpl.
  - by intros [= <- <-].
  - destruct (isinstance_Exception e); [by intros [= <- <-] | done].
Qed.

(** X15.  Without the override, a Recipe that [to_recipe] returns has an
    install hook and an uninstall hook, and both name Hooks of the heap:
    [install] and [uninstall] on it reach a Hook.  The update and is-updated
    hooks are as the Builder has them, absent or not. *)
Theorem validated_recipe_has_required_hooks st self b r st' :
  builders (heap st) !! self = Some b →
  hooks_exist (heap st) b →
  DEVM_DEBUG (world st) = false →
  Builder_to_recipe self st = (Ok r, st') →
  ∃ li lu hi hu,
    Recipe.install_hook r = Some li
    ∧ Recipe.uninstall_hook r = Some lu
    ∧ hooks (heap st') !! li = Some hi
    ∧ hooks (heap st') !! lu = Some hu
    ∧ call_hook_field (Recipe.install_hook r) st'
      = run_steps (Hook.steps hi) [] st'
    ∧ call_hook_field (Recipe.uninstall_hook r) st'
      = run_steps (Hook.steps hu) [] st'.
Proof.
  intros Hb Hex Hdebug Hto.
  destruct (to_recipe_unfold _ _ _ Hb Hex) as [msg Hun].
  rewrite Hun, Hdebug in Hto.
  destruct (Builder.install_hook b) as [li |] eqn:Hi; [| done].
  destruct (Builder.uninstall_hook b) as [lu |] eqn:Hu; [| done].
  simpl in Hto. injection Hto as <- <-.
  destruct (proj2 Hex install_kind li Hi) as [hi Hhi].
  destruct (proj2 Hex uninstall_kind lu Hu) as [hu Hhu].
  exists li, lu, hi, hu. simpl.
  split; [done |]. split; [done |]. split; [done |]. split; [done |].
  by rewrite (Hook_call_unfold _ _ _ Hhi), (Hook_call_unfold _ _ _ Hhu).
Qed.

End Further_edge_properties.

Lemma extract_step_without_dest_never_succeeds_witness :
  let x := mkStepExecutionResult 70 ""
             "'NoneType' object has no attribute 'encode'" in
  let st' := snd (call_step (extract_step (lit "a.zip") None false false false)
                    Sim.st0) in
  fst (xtract (lit "a.zip") None false false false (world Sim.st0)) = Returns ()
  ∧ call_step (extract_step (lit "a.zip") None false false false) Sim.st0
    = (Ok x, st')
  ∧ return_code x = EX_SOFTWARE ∧ stdout x = "".
Proof.
  cbv zeta.
  assert (call_step (extract_step (lit "a.zip") None false false false) Sim.st0
          = (Ok (mkStepExecutionResult 70 ""
                   "'NoneType' object has no attribute 'encode'"),
             snd (call_step (extract_step (lit "a.zip") None false false false)
                    Sim.st0))) as Hcall by (vm_compute; reflexivity).
  split; [vm_compute; reflexivity |]. split; [exact Hcall |].
  exact (extract_step_without_dest_never_succeeds _ _ _ _ _ _ _ Hcall).
Defined.

Lemma validated_recipe_has_required_hooks_witness :
  builders (heap Runs.ready) !! 1%positive = Some Runs.ready_builder
  ∧ hooks_exist (heap Runs.ready) Runs.ready_builder
  ∧ DEVM_DEBUG (world Runs.ready) = false
  ∧ Builder_to_recipe 1%positive Runs.ready = (Ok Runs.ready_recipe, Runs.ready)
  ∧ ∃ li lu hi hu,
      Recipe.install_hook Runs.ready_recipe = Some li
      ∧ Recipe.uninstall_hook Runs.ready_recipe = Some lu
      ∧ hooks (heap Runs.ready) !! li = Some hi
      ∧ hooks (heap Runs.ready) !! lu = Some hu
      ∧ call_hook_field (Recipe.install_hook Runs.ready_recipe) Runs.ready
        = run_steps (Hook.steps hi) [] Runs.ready
      ∧ call_hook_field (Recipe.uninstall_hook Runs.ready_recipe) Runs.ready
        = run_steps (Hook.steps hu) [] Runs.ready.
Proof.
  assert (builders (heap Runs.ready) !! 1%positive = Some Runs.ready_builder)
    as Hb by (vm_compute; reflexivity).
  assert (hooks_exist (heap Runs.ready) Runs.ready_builder) as Hex.
  { split; [intros l [= <-] | intros [] l [= <-]]; eexists; vm_compute; reflexivity. }
  assert (DEVM_DEBUG (world Runs.ready) = false) as Hdebug
    by (vm_compute; reflexivity).
  assert (Builder_to_recipe 1%positive Runs.ready
          = (Ok Runs.ready_recipe, Runs.ready)) as Hto by (vm_compute; reflexivity).
  split; [exact Hb |]. split; [exact Hex |]. split; [exact Hdebug |].
  split; [exact Hto |].
  exact (validated_recipe_has_required_hooks Runs.ready 1%positive
           Runs.ready_builder Runs.ready_recipe Runs.ready Hb Hex Hdebug Hto).
Defined.
